(** * x402 client scripts: [main.py] and [test_function.py]

    A shallow embedding of the two command-line scripts under
    [clients/httpx/].  Both scripts are glue over external libraries
    (the x402 payment client, httpx, eth_account, json); those libraries
    are an interface here ([Lib]), and the scripts are functions from the
    process inputs (environment, command line) to a trace of observable
    events and a final outcome.

    Conventions.
    - A Python [str] is a [string] holding its UTF-8 encoding; a byte that
      is part of no well-formed sequence stands for the lone surrogate
      that the interpreter puts in its place when it decodes the command
      line and the environment ([surrogateescape]).  [len] and slicing
      count code points ([Py.len], [Py.take]); encoding such a text fails
      exactly when it holds a lone surrogate ([Py.encodable]).
    - A Python [dict] whose iteration order is observable is an
      association list with in-place update ([Py.dict_set]); a mapping that
      is only looked up ([os.environ], the decoded settlement) is a [gmap].
    - Effects are a writer over [event] with three outcomes: normal return,
      a raised [Exception], or [SystemExit] (module [Eff]).
    - [print] writes its line and returns: the output stream takes every
      text, a lone surrogate going out as the byte it stands for (the
      [surrogateescape] handler that the interpreter gives the standard
      streams under the C and POSIX locales).  Where a statement about a
      whole run takes a setting of the environment to be well-formed
      text, it holds under a strict stream as well. *)

From Stdlib Require Import ZArith String Ascii List.
From stdpp Require Import base strings gmap list pretty.

Open Scope string_scope.
Open Scope list_scope.
Open Scope Z_scope.

(** ** Python built-ins used by the scripts *)

Module Py.

(** Truthiness of a [str]: only the empty string is false. *)
Definition str_truthy (s : string) : bool :=
  match s with EmptyString => false | String _ _ => true end.

(** Truthiness of the result of [os.getenv]: [None] and [""] are false. *)
Definition truthy (o : option string) : bool :=
  match o with Some s => str_truthy s | None => false end.

(** [all([...])] over values returned by [os.getenv]. *)
Definition all (os : list (option string)) : bool := forallb truthy os.

(** [os.getenv(name) or default]. *)
Definition or_else (o : option string) (default : string) : string :=
  match o with
  | Some s => if str_truthy s then s else default
  | None => default
  end.

(** [str.lower()] on ASCII letters; the scripts apply it to the names
    of response headers, which are ASCII. *)
Definition lower_ascii (c : ascii) : ascii :=
  let n := nat_of_ascii c in
  if (Nat.leb 65 n && Nat.leb n 90)%bool then ascii_of_nat (n + 32) else c.

Fixpoint lower (s : string) : string :=
  match s with
  | EmptyString => EmptyString
  | String c s' => String (lower_ascii c) (lower s')
  end.

(** [s.startswith(p)]. *)
Fixpoint startswith (p s : string) : bool :=
  match p, s with
  | EmptyString, _ => true
  | String a p', String b s' => (Ascii.eqb a b && startswith p' s')%bool
  | String _ _, EmptyString => false
  end.

(** [p in s] for strings: [p] occurs somewhere in [s]. *)
Fixpoint contains (p s : string) : bool :=
  (startswith p s ||
   match s with
   | EmptyString => false
   | String _ s' => contains p s'
   end)%bool.

(** *** Code points

    Well-formed UTF-8 (Unicode, table 3-7), as the interpreter's decoder
    accepts it: no overlong form, no encoded surrogate, nothing above
    U+10FFFF. *)
Definition byte (c : ascii) : nat := nat_of_ascii c.

Definition in_range (lo hi : nat) (c : ascii) : bool :=
  (Nat.leb lo (byte c) && Nat.leb (byte c) hi)%bool.

Definition continuation : ascii -> bool := in_range 128 191.

Definition second_of_three (lead c1 : ascii) : bool :=
  ((in_range 224 224 lead && in_range 160 191 c1)
   || (in_range 225 236 lead && continuation c1)
   || (in_range 237 237 lead && in_range 128 159 c1)
   || (in_range 238 239 lead && continuation c1))%bool.

Definition second_of_four (lead c1 : ascii) : bool :=
  ((in_range 240 240 lead && in_range 144 191 c1)
   || (in_range 241 243 lead && continuation c1)
   || (in_range 244 244 lead && in_range 128 143 c1))%bool.

(** The number of bytes of the code point that starts with [c] in
    [String c rest]: 2, 3 or 4 for a well-formed sequence, and 1 for an
    ASCII character and for a byte that starts no well-formed sequence
    (a lone surrogate). *)
Definition width (c : ascii) (rest : string) : nat :=
  match rest with
  | String c1 s1 =>
      if (in_range 194 223 c && continuation c1)%bool then 2%nat
      else match s1 with
           | String c2 s2 =>
               if (second_of_three c c1 && continuation c2)%bool then 3%nat
               else match s2 with
                    | String c3 _ =>
                        if (second_of_four c c1 && continuation c2
                            && continuation c3)%bool
                        then 4%nat else 1%nat
                    | EmptyString => 1%nat
                    end
           | EmptyString => 1%nat
           end
  | EmptyString => 1%nat
  end.

(** [len(s)]: the number of code points.  [skip] counts the bytes still
    to pass of a code point already counted. *)
Fixpoint len_from (skip : nat) (s : string) : nat :=
  match s with
  | EmptyString => O
  | String c s' =>
      match skip with
      | S k => len_from k s'
      | O => S (len_from (width c s' - 1) s')
      end
  end.

Definition len (s : string) : Z := Z.of_nat (len_from 0 s).

(** [s[:n]]: the first [n] code points. *)
Fixpoint take_from (skip n : nat) (s : string) : string :=
  match s with
  | EmptyString => EmptyString
  | String c s' =>
      match skip with
      | S k => String c (take_from k n s')
      | O =>
          match n with
          | O => EmptyString
          | S n' => String c (take_from (width c s' - 1) n' s')
          end
      end
  end.

Definition take (n : nat) (s : string) : string := take_from 0 n s.

(** Whether [s.encode('utf-8')] succeeds: the text holds no lone
    surrogate. *)
Fixpoint encodable_from (skip : nat) (s : string) : bool :=
  match s with
  | EmptyString => true
  | String c s' =>
      match skip with
      | S k => encodable_from k s'
      | O =>
          if (Nat.eqb (width c s') 1 && Nat.leb 128 (byte c))%bool then false
          else encodable_from (width c s' - 1) s'
      end
  end.

Definition encodable (s : string) : bool := encodable_from 0 s.

(** Text made of ASCII characters only. *)
Fixpoint ascii_only (s : string) : bool :=
  match s with
  | EmptyString => true
  | String c s' => (Nat.ltb (byte c) 128 && ascii_only s')%bool
  end.

(** [c * n] for a one-character pattern: ["=" * 60]. *)
Fixpoint repeat_str (n : nat) (s : string) : string :=
  match n with O => EmptyString | S n' => s +:+ repeat_str n' s end.

(** [arg.split('=', 1)] when ['=' in arg]: the parts before and after the
    first ['=']; [None] when [arg] holds no ['=']. *)
Fixpoint split_eq (arg : string) : option (string * string) :=
  match arg with
  | EmptyString => None
  | String c rest =>
      if Ascii.eqb c "="%char then Some (EmptyString, rest)
      else match split_eq rest with
           | Some (k, v) => Some (String c k, v)
           | None => None
           end
  end.

(** A [dict] with string keys and values, in insertion order. *)
Definition dict := list (string * string).

(** [d[k] = v]: an existing key keeps its position, a new key goes last. *)
Fixpoint dict_set (k v : string) (d : dict) : dict :=
  match d with
  | [] => [(k, v)]
  | (k', v') :: d' =>
      if String.eqb k' k then (k, v) :: d' else (k', v') :: dict_set k v d'
  end.

(** [{**d1, **d2}]: the items of [d1], then the items of [d2] set in turn. *)
Definition dict_merge (d1 d2 : dict) : dict :=
  fold_left (fun acc kv => dict_set (fst kv) (snd kv) acc) d2 d1.

(** [k in d] for an association list. *)
Definition dict_mem {A} (k : string) (d : list (string * A)) : bool :=
  existsb (fun kv => String.eqb (fst kv) k) d.

(** [d[k]] for an association list ([None] stands for [KeyError]). *)
Fixpoint dict_get {A} (k : string) (d : list (string * A)) : option A :=
  match d with
  | [] => None
  | (k', v) :: d' => if String.eqb k' k then Some v else dict_get k d'
  end.

(** Hexadecimal digits. *)
Definition hex_digit (upper : bool) (n : nat) : ascii :=
  if Nat.ltb n 10 then ascii_of_nat (48 + n)
  else ascii_of_nat ((if upper then 55 else 87) + n).

Definition hex2 (upper : bool) (c : ascii) : string :=
  let n := nat_of_ascii c in
  String (hex_digit upper (Nat.div n 16))
    (String (hex_digit upper (Nat.modulo n 16)) EmptyString).

(** [repr(s)] for a [str] of ASCII characters: single quotes unless the
    text holds a single quote and no double quote; backslash, the quote
    and control characters are escaped.  (Outside ASCII [repr] depends on
    the Unicode database of the interpreter: see [repr] in [Lib].) *)
Definition dquote : ascii := ascii_of_nat 34.

Definition repr_quote (s : string) : ascii :=
  if (contains "'" s && negb (contains (String dquote EmptyString) s))%bool
  then dquote else "'"%char.

Definition repr_char (q c : ascii) : string :=
  let n := nat_of_ascii c in
  if Ascii.eqb c "\"%char then "\\"
  else if Ascii.eqb c q then String "\"%char (String c EmptyString)
  else if Nat.eqb n 10 then "\n"
  else if Nat.eqb n 13 then "\r"
  else if Nat.eqb n 9 then "\t"
  else if (Nat.ltb n 32 || Nat.eqb n 127)%bool then "\x" +:+ hex2 false c
  else String c EmptyString.

Fixpoint repr_body (q : ascii) (s : string) : string :=
  match s with
  | EmptyString => EmptyString
  | String c s' => repr_char q c +:+ repr_body q s'
  end.

Definition repr_str (s : string) : string :=
  let q := repr_quote s in
  String q (repr_body q s) +:+ String q EmptyString.

(** [", ".join(parts)]. *)
Fixpoint join (sep : string) (parts : list string) : string :=
  match parts with
  | [] => EmptyString
  | [p] => p
  | p :: ps => p +:+ sep +:+ join sep ps
  end.

(** [repr] of a list of strings and of a [dict] of strings (ASCII). *)
Definition repr_list (l : list string) : string :=
  "[" +:+ join ", " (map repr_str l) +:+ "]".

Definition repr_dict (d : dict) : string :=
  "{" +:+ join ", " (map (fun kv => repr_str (fst kv) +:+ ": " +:+ repr_str (snd kv)) d)
      +:+ "}".

Definition ascii_dict (d : dict) : bool :=
  forallb (fun kv => (ascii_only (fst kv) && ascii_only (snd kv))%bool) d.

(** [urllib.parse.quote_plus] on [bytes]: letters, digits and [_.-~] are
    kept, a space becomes [+], every other byte becomes [%XX]. *)
Definition unreserved (c : ascii) : bool :=
  let n := nat_of_ascii c in
  ((Nat.leb 65 n && Nat.leb n 90) || (Nat.leb 97 n && Nat.leb n 122)
   || (Nat.leb 48 n && Nat.leb n 57)
   || Nat.eqb n 95 || Nat.eqb n 46 || Nat.eqb n 45 || Nat.eqb n 126)%bool.

Fixpoint quote_plus_bytes (bs : string) : string :=
  match bs with
  | EmptyString => EmptyString
  | String c bs' =>
      (if unreserved c then String c EmptyString
       else if Ascii.eqb c " "%char then "+"
       else "%" +:+ hex2 true c) +:+ quote_plus_bytes bs'
  end.

(** [urllib.parse.quote_plus(s)] on a [str]: the text is encoded, which
    fails on a lone surrogate ([None] stands for [UnicodeEncodeError]),
    and its bytes are quoted. *)
Definition quote_plus (s : string) : option string :=
  if encodable s then Some (quote_plus_bytes s) else None.

(** [urllib.parse.urlencode(d)] on a [dict] of [bytes]. *)
Definition urlencode_bytes (d : dict) : string :=
  join "&" (map (fun kv => quote_plus_bytes (fst kv) +:+ "="
                           +:+ quote_plus_bytes (snd kv)) d).

(** [urllib.parse.urlencode(d)] on a [dict] of [str]: every key and then
    its value is quoted, item after item; [inl s] stands for the
    [UnicodeEncodeError] raised for the first key or value [s] that
    cannot be encoded. *)
Fixpoint urlencode_items (d : dict) : string + list string :=
  match d with
  | [] => inr []
  | (k, v) :: d' =>
      match quote_plus k with
      | None => inl k
      | Some qk =>
          match quote_plus v with
          | None => inl v
          | Some qv =>
              match urlencode_items d' with
              | inl s => inl s
              | inr l => inr ((qk +:+ "=" +:+ qv) :: l)
              end
          end
      end
  end.

Definition urlencode (d : dict) : string + string :=
  match urlencode_items d with
  | inl s => inl s
  | inr l => inr (join "&" l)
  end.

(** [str(n)] for an [int]. *)
Definition str_int (n : Z) : string := pretty n.

(** The line break inside a message. *)
Definition nl : string := String (ascii_of_nat 10) EmptyString.

(** The text of a variable already checked to be set. *)
Definition the (o : option string) : string := default EmptyString o.

End Py.

(** ** Effects: output, exceptions and process exit *)

(** An [Exception] instance: what [str(e)] gives and what
    [traceback.print_exc()] writes for it. *)
Record exn := Exn { exn_str : string; exn_traceback : string }.

(** The fields of a decoded settlement: what [dict.get] hands to an
    f-string for each key. *)
Abbreviation settlement := (gmap string string).

(** What [decode_x_payment_response] returns, the decoded JSON document:
    an object with its fields, or any other value, on which [.get]
    raises [AttributeError]. *)
Inductive decoded :=
| Object (fields : settlement)
| NotObject (attribute_error : exn).

(** Response headers as the scripts use them: the pairs that
    [headers.items()] yields, and the lookup behind [name in headers] and
    [headers[name]]. *)
Record Headers := {
  items : list (string * string);
  lookup_header : string -> option string;
}.

(** The response object: status code, headers, and the result of reading
    and decoding the body ([aread()] then [decode()]), which can raise. *)
Record Response := {
  status_code : Z;
  headers : Headers;
  read_text : exn + string;
}.

(** The keyword arguments the scripts give to [x402HttpxClient]. *)
Record ClientConfig (account selector : Type) := {
  cfg_account : account;
  cfg_base_url : string;
  cfg_selector : selector;
  cfg_headers : Py.dict;
}.
Arguments cfg_account {_ _}.
Arguments cfg_base_url {_ _}.
Arguments cfg_selector {_ _}.
Arguments cfg_headers {_ _}.

(** Observable events of a run, in order. *)
Inductive event :=
| Stdout (line : string)      (* one [print] call *)
| Stderr (text : string)      (* [traceback.print_exc()] *)
| ClientOpen (base_url : string) (hdrs : Py.dict)   (* [async with] entered *)
| Get (path : string)         (* [client.get(path)]: the network call *)
| ClientClose.                 (* leaving [async with] *)

Module Eff.

(** How a block of code ends. [Exit] is [SystemExit]: it is not an
    [Exception], so [except Exception] does not catch it. *)
Inductive outcome (A : Type) :=
| Ret (a : A)
| Raise (e : exn)
| Exit (code : Z).
Arguments Ret {A}.
Arguments Raise {A}.
Arguments Exit {A}.

Definition M (A : Type) : Type := list event * outcome A.

Definition ret {A} (a : A) : M A := ([], Ret a).

Definition bind {A B} (m : M A) (k : A -> M B) : M B :=
  match m with
  | (t, Ret a) => let '(t', o) := k a in (t ++ t', o)
  | (t, Raise e) => (t, Raise e)
  | (t, Exit c) => (t, Exit c)
  end.

Definition emit (e : event) : M unit := ([e], Ret tt).
Definition print (line : string) : M unit := emit (Stdout line).
Definition raise {A} (e : exn) : M A := ([], Raise e).
Definition exit {A} (code : Z) : M A := ([], Exit code).

(** Lift the result of a library call that can raise. *)
Definition call {A} (r : exn + A) : M A :=
  match r with inl e => raise e | inr a => ret a end.

(** [try: body  except Exception as e: handler e]. *)
Definition try_except {A} (body : M A) (handler : exn -> M A) : M A :=
  match body with
  | (t, Raise e) => let '(t', o) := handler e in (t ++ t', o)
  | m => m
  end.

(** [for x in xs: body x]. *)
Fixpoint for_each {A} (xs : list A) (body : A -> M unit) : M unit :=
  match xs with
  | [] => ret tt
  | x :: xs' => bind (body x) (fun _ => for_each xs' body)
  end.

(** [async with resource as client: body].  Building and entering the
    resource ([enter]) can raise: then the block is not run and nothing
    is opened.  Once entered, the client is closed on every way out of
    the block. *)
Definition async_with {A} (enter : exn + unit) (open : event) (body : M A)
  : M A :=
  match enter with
  | inl e => raise e
  | inr _ => let '(t, o) := body in ([open] ++ t ++ [ClientClose], o)
  end.

Definition trace {A} (m : M A) : list event := fst m.
Definition result {A} (m : M A) : outcome A := snd m.

End Eff.

Import Eff.

Declare Scope eff_scope.
Delimit Scope eff_scope with eff.
Notation "x <- c1 ;; c2" := (Eff.bind c1 (fun x => c2))
  (at level 100, c1 at next level, c2 at level 200, right associativity) : eff_scope.
Notation "c1 ;; c2" := (Eff.bind c1 (fun _ => c2))
  (at level 100, c2 at level 200, right associativity) : eff_scope.
Open Scope eff_scope.

(** The lines a run printed with [print]. *)
Definition stdout (t : list event) : list string :=
  omap (fun e => match e with Stdout l => Some l | _ => None end) t.

(** The paths a run requested over the network. *)
Definition requests (t : list event) : list string :=
  omap (fun e => match e with Get p => Some p | _ => None end) t.

(** The exit status of the interpreter: 0 after a normal return, the
    code of [SystemExit], 1 after an uncaught exception. *)
Definition exit_status {A} (m : M A) : Z :=
  match Eff.result m with
  | Ret _ => 0
  | Raise _ => 1
  | Exit c => c
  end.

(** The whole process: an uncaught exception is reported on stderr by the
    interpreter before it exits. *)
Definition process {A} (m : M A) : list event * Z :=
  match m with
  | (t, Raise e) => (t ++ [Stderr (exn_traceback e)], 1)
  | (t, Ret _) => (t, 0)
  | (t, Exit c) => (t, c)
  end.

(** ** The external libraries *)

(** What the scripts import: [eth_account.Account], the x402 client and
    its helpers, and [json]; and two things of the interpreter that are
    not computed here, the exception of a failed encoding and [repr]
    outside ASCII.  None of it is part of this repository, so a run is
    relative to an implementation [L] of this interface. *)
Record Lib := {
  account : Type;
  requirement : Type;
  json : Type;
  (** [account.address] *)
  address : account -> string;
  (** [Account.from_key(private_key)] *)
  from_key : string -> exn + account;
  (** [x402Client.default_payment_requirements_selector(accepts,
      network_filter=, scheme_filter=, max_value=)] *)
  default_payment_requirements_selector :
    list requirement -> option string -> option string -> option Z ->
    exn + requirement;
  (** [decode_x_payment_response(header)] *)
  decode_x_payment_response : string -> exn + decoded;
  (** [json.loads(text)] and [json.dumps(data, indent=2)] *)
  json_loads : string -> exn + json;
  json_dumps : json -> string;
  (** [x402HttpxClient(account=, base_url=, payment_requirements_selector=,
      headers=)] and entering it with [async with]: it raises (on a
      malformed base URL, for one), or the client is open *)
  x402HttpxClient :
    ClientConfig account
      (list requirement -> option string -> option string -> option Z ->
       exn + requirement) ->
    exn + unit;
  (** [await client.get(path)] on a client built from the given arguments *)
  client_get :
    ClientConfig account
      (list requirement -> option string -> option string -> option Z ->
       exn + requirement) ->
    string -> exn + Response;
  (** The [UnicodeEncodeError] raised when the given [str] is encoded *)
  UnicodeEncodeError : string -> exn;
  (** [repr(d)] of a [dict] of [str], and what it is on ASCII text *)
  repr : Py.dict -> string;
  repr_ascii : forall d, Py.ascii_dict d = true -> repr d = Py.repr_dict d;
}.

(** A block that only prints: it returns, and its trace is its lines. *)
Definition prints (m : M unit) (lines : list string) : Prop :=
  m = (map Stdout lines, Ret tt).

(** The name of the settlement header both scripts look for. *)
Definition settlement_header : string := "X-Payment-Response".

(** [fields.get(field, 'N/A')] on the fields of an object. *)
Definition get_or_na (payment_response : settlement) (field : string) : string :=
  default "N/A" (payment_response !! field).

(** [payment_response.get(field, 'N/A')] on what the decoder returned. *)
Definition get (payment_response : decoded) (field : string) : exn + string :=
  match payment_response with
  | Object fields => inr (get_or_na fields field)
  | NotObject attribute_error => inl attribute_error
  end.

(** [urlencode(d)] as the script calls it: a failed encoding raises. *)
Definition urlencode (L : Lib) (d : Py.dict) : exn + string :=
  match Py.urlencode d with
  | inl s => inl (UnicodeEncodeError L s)
  | inr query_string => inr query_string
  end.

(** The settlement confirmation block of both scripts (lines 121-124 and
    202-205). *)
Definition settlement_block (d : settlement) : list string :=
  [Py.nl +:+ "✅ Payment Settlement Confirmed:";
   "   Transaction: " +:+ get_or_na d "transaction";
   "   Network: " +:+ get_or_na d "network";
   "   Payer: " +:+ get_or_na d "payer"].

(** The rule of both scripts for echoing a header (lines 85 and 172). *)
Definition header_shown (key : string) : bool :=
  (Py.contains "payment" (Py.lower key) || Py.contains "x-" (Py.lower key))%bool.

(** The line printed for a header that is shown (lines 86 and 173). *)
Definition header_line (key value : string) : string :=
  if Py.len value >? 100
  then "   " +:+ key +:+ ": " +:+ Py.take 100 value +:+ "..."
  else "   " +:+ key +:+ ": " +:+ value.

(** The loop over [response.headers.items()].  [main.py] also sets a
    flag [x_payment_sent] in this loop; nothing reads it afterwards, so it
    leaves no trace here. *)
Definition echo_headers (hs : Headers) : M unit :=
  for_each (items hs) (fun kv =>
    if header_shown (fst kv) then print (header_line (fst kv) (snd kv))
    else ret tt).

(** The body: pretty-printed JSON, or the first 500 characters (code
    points) when the text does not parse (the bare [except:]). *)
Definition show_body (L : Lib) (content_str : string) : M unit :=
  match json_loads L content_str with
  | inr data => print (json_dumps L data)
  | inl _ => print (Py.take 500 content_str)
  end.

Definition rule : string := Py.repeat_str 60 "=".

(** "Show response details": headers, body, and the banner of the
    verification part (main.py lines 81-101, test_function.py 169-187). *)
Definition show_response (L : Lib) (response : Response) (content_str : string)
  : M unit :=
  print (Py.nl +:+ "📋 Response Headers:") ;;
  echo_headers (headers response) ;;
  print (Py.nl +:+ "📦 Response Body:") ;;
  show_body L content_str ;;
  print (Py.nl +:+ rule) ;;
  print "X-PAYMENT Header Verification:" ;;
  print rule.

(** What [show_response] prints, line by line. *)
Definition header_lines (hs : Headers) : list string :=
  map (fun kv => header_line (fst kv) (snd kv))
      (List.filter (fun kv => header_shown (fst kv)) (items hs)).

Definition body_line (L : Lib) (content_str : string) : string :=
  match json_loads L content_str with
  | inr data => json_dumps L data
  | inl _ => Py.take 500 content_str
  end.

Definition response_lines (L : Lib) (response : Response) (content_str : string)
  : list string :=
  [Py.nl +:+ "📋 Response Headers:"] ++ header_lines (headers response)
  ++ [Py.nl +:+ "📦 Response Body:"; body_line L content_str;
      Py.nl +:+ rule; "X-PAYMENT Header Verification:"; rule].

(** The line that reports the status code (lines 75 and 163). *)
Definition status_line (response : Response) : string :=
  "2. Response Status: " +:+ Py.str_int (status_code response).

(** The handler of both scripts: [except Exception as e]. *)
Definition report_error (e : exn) : M unit :=
  print (Py.nl +:+ "❌ Error occurred: " +:+ exn_str e) ;;
  emit (Stderr (exn_traceback e)).

(** ** [main.py] *)

Module Main.
Section Script.
Context (L : Lib).

Definition selector : Type :=
  list (requirement L) -> option string -> option string -> option Z ->
  exn + requirement L.

(** [custom_payment_selector] (lines 33-50): [network_filter] is bound
    and dropped, the default selector is called with ["base"]. *)
Definition custom_payment_selector : selector :=
  fun accepts network_filter scheme_filter max_value =>
    let _ := network_filter in
    default_payment_requirements_selector L accepts (Some "base")
      scheme_filter max_value.

(** The classification by status code (lines 102-114). *)
Definition verify_payment (status : Z) : M unit :=
  if status =? 200 then
    print "✅ Payment verified successfully!" ;;
    print "   (x402HttpxClient automatically handled the payment flow)" ;;
    print "   - Received 402 Payment Required" ;;
    print "   - Generated payment authorization" ;;
    print "   - Sent request with X-PAYMENT header" ;;
    print "   - Received 200 OK with function result"
  else if status =? 402 then
    print "⚠️  Received 402 Payment Required" ;;
    print "   This means payment was not processed correctly" ;;
    print "   Check payment requirements and wallet balance"
  else
    print ("⚠️  Unexpected status code: " +:+ Py.str_int status).

(** The settlement header check (lines 116-128). *)
Definition check_settlement (hs : Headers) : M unit :=
  match lookup_header hs settlement_header with
  | Some value =>
      payment_response <- call (decode_x_payment_response L value) ;;
      print (Py.nl +:+ "✅ Payment Settlement Confirmed:") ;;
      transaction <- call (get payment_response "transaction") ;;
      print ("   Transaction: " +:+ transaction) ;;
      network <- call (get payment_response "network") ;;
      print ("   Network: " +:+ network) ;;
      payer <- call (get payment_response "payer") ;;
      print ("   Payer: " +:+ payer)
  | None =>
      print (Py.nl +:+ "⚠️  No X-Payment-Response header") ;;
      print "   Payment was verified but settlement header not present" ;;
      print "   (This is normal if settlement failed but verification passed)"
  end.

(** The lines printed before the request (lines 64-71). *)
Definition announce (cfg : ClientConfig (account L) selector)
    (endpoint_path : string) : M unit :=
  print ("🌐 Making request to: " +:+ endpoint_path) ;;
  print ("📡 Base URL: " +:+ cfg_base_url cfg) ;;
  print ("🔐 Account: " +:+ address L (cfg_account cfg)) ;;
  print "" ;;
  print rule ;;
  print "x402 Payment Flow:" ;;
  print rule ;;
  print "1. Initial request (expecting 402 Payment Required)...".

(** The body of the [try] block (lines 63-128). *)
Definition request (cfg : ClientConfig (account L) selector)
    (endpoint_path : string) : M unit :=
  announce cfg endpoint_path ;;
  emit (Get endpoint_path) ;;
  response <- call (client_get L cfg endpoint_path) ;;
  print (status_line response) ;;
  content_str <- call (read_text response) ;;
  show_response L response content_str ;;
  verify_payment (status_code response) ;;
  check_settlement (headers response).

(** [main()] (lines 53-133): the client is built and entered outside
    the [try]. *)
Definition main (cfg : ClientConfig (account L) selector)
    (endpoint_path : string) : M unit :=
  async_with (x402HttpxClient L cfg)
    (ClientOpen (cfg_base_url cfg) (cfg_headers cfg))
    (try_except (request cfg endpoint_path) report_error).

(** The module level of the script (lines 8-30 and 136-137), run on the
    environment left by [load_dotenv()]. *)
Definition script (env : gmap string string) : M unit :=
  let private_key := env !! "PRIVATE_KEY" in
  let base_url := env !! "RESOURCE_SERVER_URL" in
  let endpoint_path := env !! "ENDPOINT_PATH" in
  let supabase_anon_key := env !! "SUPABASE_ANON_KEY" in
  if negb (Py.all [private_key; base_url; endpoint_path]) then
    print "Error: Missing required environment variables" ;;
    exit 1
  else
    hdrs <- (if Py.truthy supabase_anon_key then
               print "Using Authorization header with Supabase anon key" ;;
               ret [("Authorization", "Bearer " +:+ Py.the supabase_anon_key);
                    ("Content-Type", "application/json")]
             else ret []) ;;
    acct <- call (from_key L (Py.the private_key)) ;;
    print ("Initialized account: " +:+ address L acct) ;;
    main {| cfg_account := acct; cfg_base_url := Py.the base_url;
            cfg_selector := custom_payment_selector; cfg_headers := hdrs |}
         (Py.the endpoint_path).

End Script.
End Main.

(** ** [test_function.py] *)

Module TestFunction.

Record config := { description : string; default_params : Py.dict }.

(** [FUNCTION_CONFIGS] (lines 29-51), in source order. *)
Definition FUNCTION_CONFIGS : list (string * config) :=
  [ ("toolzv4",
     {| description := "IPv4 Network Connectivity Testing Tool";
        default_params :=
          [("target", "8.8.8.8"); ("count", "4"); ("timeout", "5000")] |});
    ("url-qr-code-generator",
     {| description := "URL QR Code Generator";
        default_params := [("url", "https://example.com"); ("size", "200")] |});
    ("email-validator",
     {| description :=
          "Email Validator - Validates email address format using RFC-style patterns";
        default_params := [("email", "user@example.com")] |}) ].

(** [list(FUNCTION_CONFIGS.keys())] *)
Definition function_names : list string := map fst FUNCTION_CONFIGS.

(** The loops of [parse_args] over the arguments (lines 85-88, 97-100):
    every [key=value] token sets [params[key] = value]. *)
Definition parse_params (args : list string) : Py.dict :=
  fold_left (fun params arg =>
               match Py.split_eq arg with
               | Some (key, value) => Py.dict_set key value params
               | None => params
               end) args [].

(** The usage message (lines 71-75). *)
Definition print_usage : M unit :=
  print "Usage: python test_function.py <function_name> [param=value ...]" ;;
  print (Py.nl +:+ "Available functions:") ;;
  for_each FUNCTION_CONFIGS (fun fc =>
    print ("  " +:+ fst fc +:+ ": " +:+ description (snd fc)) ;;
    print ("    Default params: " +:+ Py.repr_dict (default_params (snd fc)))).

(** [parse_args()] (lines 66-102); [args] is [sys.argv[1:]]. *)
Definition parse_args (env : gmap string string) (args : list string)
  : M (string * Py.dict) :=
  match args with
  | [] => print_usage ;; exit 1
  | arg0 :: rest =>
      let override := env !! "FUNCTION_NAME" in
      let function_name := Py.or_else override arg0 in
      if Py.dict_mem function_name FUNCTION_CONFIGS then
        ret (function_name,
             parse_params (if negb (Py.truthy override) then rest else args))
      else if negb (Py.truthy override) then
        print ("Error: '" +:+ function_name +:+ "' is not a known function.") ;;
        print ("Available functions: " +:+ Py.repr_list function_names) ;;
        exit 1
      else
        ret (Py.the override, parse_params args)
  end.

Definition default_base_url : string := "https://xluihnzwcmxybtygewvy.supabase.co".

(** The merged parameters (line 116) and the request path built from
    their query string (line 120). *)
Definition final_params (cfg : config) (params : Py.dict) : Py.dict :=
  Py.dict_merge (default_params cfg) params.

Definition endpoint_path (function_name query_string : string) : string :=
  "/functions/v1/" +:+ function_name +:+ "?" +:+ query_string.

Section Script.
Context (L : Lib).

Definition selector : Type :=
  list (requirement L) -> option string -> option string -> option Z ->
  exn + requirement L.

(** [custom_payment_selector] (lines 54-63). *)
Definition custom_payment_selector : selector :=
  fun accepts network_filter scheme_filter max_value =>
    default_payment_requirements_selector L accepts (Some "base")
      scheme_filter max_value.

(** The classification by status code (lines 188-195). *)
Definition verify_payment (status : Z) : M unit :=
  if status =? 200 then
    print "✅ Payment verified successfully!" ;;
    print "   (x402HttpxClient automatically handled the payment flow)"
  else if status =? 402 then
    print "⚠️  Received 402 Payment Required" ;;
    print "   Payment was not processed correctly"
  else
    print ("⚠️  Unexpected status code: " +:+ Py.str_int status).

(** The settlement header check (lines 197-208). *)
Definition check_settlement (hs : Headers) : M unit :=
  match lookup_header hs settlement_header with
  | Some value =>
      payment_response <- call (decode_x_payment_response L value) ;;
      print (Py.nl +:+ "✅ Payment Settlement Confirmed:") ;;
      transaction <- call (get payment_response "transaction") ;;
      print ("   Transaction: " +:+ transaction) ;;
      network <- call (get payment_response "network") ;;
      print ("   Network: " +:+ network) ;;
      payer <- call (get payment_response "payer") ;;
      print ("   Payer: " +:+ payer)
  | None =>
      print (Py.nl +:+ "⚠️  No X-Payment-Response header") ;;
      print "   (Payment verified but settlement header not present)"
  end.

(** The body of the [try] block (lines 161-208). *)
Definition request (cfg : ClientConfig (account L) selector) (path : string)
  : M unit :=
  emit (Get path) ;;
  response <- call (client_get L cfg path) ;;
  print (status_line response) ;;
  content_str <- call (read_text response) ;;
  show_response L response content_str ;;
  verify_payment (status_code response) ;;
  check_settlement (headers response).

(** The [async with] block around the request (lines 154-213): the
    client is built and entered outside the [try]. *)
Definition send (cfg : ClientConfig (account L) selector) (path : string)
  : M unit :=
  async_with (x402HttpxClient L cfg)
    (ClientOpen (cfg_base_url cfg) (cfg_headers cfg))
    (try_except (request cfg path) report_error).

(** [test_function(function_name, params)] (lines 105-213). *)
Definition test_function (env : gmap string string) (function_name : string)
    (params : Py.dict) : M unit :=
  match Py.dict_get function_name FUNCTION_CONFIGS with
  | None =>
      print ("❌ Unknown function: " +:+ function_name) ;;
      print ("Available functions: " +:+ Py.repr_list function_names)
  | Some cfg =>
      let fp := final_params cfg params in
      query_string <- call (urlencode L fp) ;;
      let path := endpoint_path function_name query_string in
      let private_key := env !! "PRIVATE_KEY" in
      let base_url := Py.or_else (env !! "RESOURCE_SERVER_URL") default_base_url in
      let supabase_anon_key := env !! "SUPABASE_ANON_KEY" in
      if negb (Py.truthy private_key) then
        print "❌ Error: PRIVATE_KEY environment variable is required" ;;
        print "Set it in .env file or environment"
      else
        let hdrs := if Py.truthy supabase_anon_key
                    then [("Authorization", "Bearer " +:+ Py.the supabase_anon_key);
                          ("Content-Type", "application/json")]
                    else [] in
        acct <- call (from_key L (Py.the private_key)) ;;
        print ("🧪 Testing Function: " +:+ function_name) ;;
        print ("📝 Description: " +:+ description cfg) ;;
        print ("🌐 Endpoint: " +:+ path) ;;
        print ("📡 Base URL: " +:+ base_url) ;;
        print ("🔐 Account: " +:+ address L acct) ;;
        print ("📋 Parameters: " +:+ repr L fp) ;;
        print "" ;;
        print rule ;;
        print "x402 Payment Flow:" ;;
        print rule ;;
        print "1. Initial request (expecting 402 Payment Required)..." ;;
        send {| cfg_account := acct; cfg_base_url := base_url;
                cfg_selector := custom_payment_selector;
                cfg_headers := hdrs |} path
  end.

(** The script run as a program (lines 216-218). *)
Definition script (env : gmap string string) (args : list string) : M unit :=
  parsed <- parse_args env args ;;
  test_function env (fst parsed) (snd parsed).

End Script.
End TestFunction.

(** ** A concrete library, for running the scripts on examples *)

Module Demo.

(** Headers in the manner of [httpx.Headers]: [items()] yields lower-case
    names, and lookup ignores case. *)
Definition httpx_headers (raw : list (string * string)) : Headers :=
  {| items := map (fun kv => (Py.lower (fst kv), snd kv)) raw;
     lookup_header := fun name =>
       Py.dict_get (Py.lower name)
         (map (fun kv => (Py.lower (fst kv), snd kv)) raw) |}.

(** An offered payment requirement: network, scheme, maximum amount. *)
Record offer := { network : string; scheme : string; amount : Z }.

Definition matches (network_filter scheme_filter : option string)
    (max_value : option Z) (o : offer) : bool :=
  (match network_filter with
   | Some n => Py.startswith n (network o) | None => true end
   && match scheme_filter with
      | Some s => String.eqb s (scheme o) | None => true end
   && match max_value with
      | Some m => amount o <=? m | None => true end)%bool.

Definition no_match : exn :=
  Exn "No matching payment requirements found" "UnsupportedSchemeException".

Definition invalid_url : exn :=
  Exn "Invalid port: 'abc'" "Traceback: httpx.InvalidURL".

Definition surrogates_not_allowed : exn :=
  Exn "'utf-8' codec can't encode character: surrogates not allowed"
      "Traceback: UnicodeEncodeError".

(** A library whose server always answers with [reply] and whose
    settlement decoder always yields [settled].  Its client cannot be
    built on a base URL whose port is [abc]. *)
Definition lib (reply : exn + Response) (settled : exn + decoded) : Lib :=
  {| account := string;
     requirement := offer;
     json := string;
     address := fun a => a;
     from_key := fun key =>
       if Py.startswith "0x" key then inr ("0xA11CE" +:+ key)
       else inl (Exn "invalid private key" "ValueError");
     default_payment_requirements_selector := fun accepts nf sf mv =>
       match filter (fun o => Is_true (matches nf sf mv o)) accepts with
       | o :: _ => inr o
       | [] => inl no_match
       end;
     decode_x_payment_response := fun _ => settled;
     json_loads := fun text =>
       if Py.startswith "{" text then inr text
       else inl (Exn "Expecting value" "JSONDecodeError");
     json_dumps := fun data => data;
     x402HttpxClient := fun cfg =>
       if Py.contains ":abc" (cfg_base_url cfg) then inl invalid_url else inr tt;
     client_get := fun _ _ => reply;
     UnicodeEncodeError := fun _ => surrogates_not_allowed;
     repr := Py.repr_dict;
     repr_ascii := fun _ _ => eq_refl |}.

Definition response (status : Z) (raw : list (string * string)) (body : string)
  : Response :=
  {| status_code := status; headers := httpx_headers raw; read_text := inr body |}.

Definition env_ok : gmap string string :=
  <["PRIVATE_KEY" := "0x01"]> (<["RESOURCE_SERVER_URL" := "https://example.test"]>
   (<["ENDPOINT_PATH" := "/functions/v1/toolzv4"]> ∅)).

Definition receipt : settlement :=
  <["transaction" := "0xfeed"]> (<["network" := "base"]> ∅).

(** A server that cannot be reached. *)
Definition refused : exn :=
  Exn "connection refused" "Traceback: httpx.ConnectError".

Definition offline : Lib := lib (inl refused) (inl no_match).

(** An environment that names a function the registry does not hold. *)
Definition env_bogus : gmap string string :=
  <["FUNCTION_NAME" := "bogus"]> env_ok.



(** A 402 answer without a settlement header. *)
Definition unpaid_plain : Response := response 402 [("Server", "edge")] "{}".

(** An answer with a header that is neither a payment header nor an
    [X-] header, and one with an over-long value. *)
Definition forwarded : Headers := httpx_headers [("Max-Forwards", "10")].

Definition long_value : string := Py.repeat_str 101 "a".

(** A server that answers 402 without a settlement header. *)
Definition plain : Lib := lib (inr unpaid_plain) (inl no_match).

(** A paid answer with a settlement header, and an overloaded server. *)
Definition paid_response : Response :=
  response 200 [("X-Payment-Response", "eyJ0eCI6MX0=")] "{}".

Definition paid : Lib := lib (inr paid_response) (inr (Object receipt)).

Definition busy_response : Response := response 503 [("Server", "edge")] "busy".

Definition busy : Lib := lib (inr busy_response) (inl no_match).

(** Two offers, the second on a ["base"] network. *)
Definition offers : list offer :=
  [ {| network := "polygon"; scheme := "exact"; amount := 5 |};
    {| network := "base-sepolia"; scheme := "exact"; amount := 7 |} ].

(** The client arguments of a run against [L] with account [acct]. *)
Definition client (L : Lib) (acct : account L)
  : ClientConfig (account L) (Main.selector L) :=
  {| cfg_account := acct; cfg_base_url := "https://example.test";
     cfg_selector := Main.custom_payment_selector L; cfg_headers := [] |}.

End Demo.


(** ** Observations on runs *)

(** The clients a run opened: the base URL and the default headers given
    to [x402HttpxClient]. *)
Definition opened (t : list event) : list (string * Py.dict) :=
  omap (fun e => match e with ClientOpen b h => Some (b, h) | _ => None end) t.

(** What a run wrote to stderr. *)
Definition stderr (t : list event) : list string :=
  omap (fun e => match e with Stderr x => Some x | _ => None end) t.

(** A trace of the [try] block: one request for [path], no client opened. *)
Definition inner (t : list event) (path : string) : Prop :=
  requests t = [path] /\ opened t = [].

(** [s.count(c)] for a single character. *)
Fixpoint count_char (c : ascii) (s : string) : nat :=
  match s with
  | EmptyString => O
  | String a s' => ((if Ascii.eqb a c then 1 else 0) + count_char c s')%nat
  end.

(** The default headers both scripts build from [SUPABASE_ANON_KEY]
    (main.py lines 22-25, test_function.py lines 133-136). *)
Definition auth_headers (supabase_anon_key : option string) : Py.dict :=
  if Py.truthy supabase_anon_key
  then [("Authorization", "Bearer " +:+ Py.the supabase_anon_key);
        ("Content-Type", "application/json")]
  else [].

(** The arguments each script gives to [x402HttpxClient] (main.py lines
    55-60, test_function.py lines 154-159) once the account is made. *)
Definition main_client_config (L : Lib) (env : gmap string string)
    (acct : account L) : ClientConfig (account L) (Main.selector L) :=
  {| cfg_account := acct;
     cfg_base_url := Py.the (env !! "RESOURCE_SERVER_URL");
     cfg_selector := Main.custom_payment_selector L;
     cfg_headers := auth_headers (env !! "SUPABASE_ANON_KEY") |}.

Definition tf_client_config (L : Lib) (env : gmap string string)
    (acct : account L) : ClientConfig (account L) (TestFunction.selector L) :=
  {| cfg_account := acct;
     cfg_base_url := Py.or_else (env !! "RESOURCE_SERVER_URL")
                       TestFunction.default_base_url;
     cfg_selector := TestFunction.custom_payment_selector L;
     cfg_headers := auth_headers (env !! "SUPABASE_ANON_KEY") |}.

(** More inputs for running the scripts. *)
Module Cases.

(** A key that [Demo.lib] rejects. *)
Definition env_bad_key : gmap string string :=
  <["PRIVATE_KEY" := "not-a-key"]> Demo.env_ok.

(** An environment with the bearer credential, and one with the
    function-name override set to a registered name. *)
Definition env_anon : gmap string string :=
  <["SUPABASE_ANON_KEY" := "anon"]> Demo.env_ok.

Definition env_override : gmap string string :=
  <["FUNCTION_NAME" := "email-validator"]> Demo.env_ok.

(** An environment with the signing key only. *)
Definition env_key_only : gmap string string := <["PRIVATE_KEY" := "0x01"]> ∅.

(** A paid answer whose settlement header does not decode. *)
Definition garbled : exn := Exn "Incorrect padding" "Traceback: binascii.Error".

Definition paid_garbled : Lib := Demo.lib (inr Demo.paid_response) (inl garbled).

(** A paid answer without a settlement header, with a body that is not JSON. *)
Definition paid_plain_response : Response :=
  Demo.response 200 [("Server", "edge")] "pong".

Definition paid_plain : Lib := Demo.lib (inr paid_plain_response) (inl Demo.no_match).

(** An answer whose body cannot be decoded. *)
Definition undecodable : exn :=
  Exn "'utf-8' codec can't decode byte 0xff" "Traceback: UnicodeDecodeError".

Definition broken_response : Response :=
  {| status_code := 200; headers := Demo.httpx_headers [("X-Trace", "1")];
     read_text := inl undecodable |}.

Definition broken : Lib := Demo.lib (inr broken_response) (inl Demo.no_match).





(** A base URL on which the client cannot be built. *)
Definition env_bad_url : gmap string string :=
  <["RESOURCE_SERVER_URL" := "http://x:abc"]> Demo.env_ok.

(** Text of [n] accented letters, each a character of two bytes. *)
Definition accents (n : nat) : string := Py.repeat_str n "é".

(** An argument that holds a byte which is no UTF-8: a lone surrogate
    once the interpreter has decoded the command line. *)
Definition stray : string := "target=" +:+ String (ascii_of_nat 255) EmptyString.

End Cases.

(** * Properties *)

(** ** The effect monad *)

Section EffFacts.
Context {A B : Type}.

Lemma bind_ret (a : A) (k : A -> M B) : Eff.bind (ret a) k = k a.
Proof. unfold Eff.bind, ret. destruct (k a) as [t o]. reflexivity. Qed.

Lemma bind_returns (m : M A) (k : A -> M B) t a :
  m = (t, Ret a) ->
  Eff.bind m k = (t ++ Eff.trace (k a), Eff.result (k a)).
Proof. intros ->. unfold Eff.bind. destruct (k a). reflexivity. Qed.

Lemma bind_raises (m : M A) (k : A -> M B) t e :
  m = (t, Raise e) -> Eff.bind m k = (t, Raise e).
Proof. intros ->. reflexivity. Qed.

Lemma bind_exits (m : M A) (k : A -> M B) t c :
  m = (t, Exit c) -> Eff.bind m k = (t, Exit c).
Proof. intros ->. reflexivity. Qed.

Lemma print_then (line : string) (k : M B) :
  Eff.bind (print line) (fun _ => k) = (Stdout line :: Eff.trace k, Eff.result k).
Proof. destruct k. reflexivity. Qed.

Lemma emit_then (e : event) (k : M B) :
  Eff.bind (emit e) (fun _ => k) = (e :: Eff.trace k, Eff.result k).
Proof. destruct k. reflexivity. Qed.

End EffFacts.

Lemma eta_M {A} (m : M A) : m = (Eff.trace m, Eff.result m).
Proof. destruct m. reflexivity. Qed.

Lemma prints_print line : prints (print line) [line].
Proof. reflexivity. Qed.

Lemma prints_ret : prints (ret tt) [].
Proof. reflexivity. Qed.

Lemma prints_bind m k l1 l2 :
  prints m l1 -> prints k l2 -> prints (Eff.bind m (fun _ => k)) (l1 ++ l2).
Proof.
  unfold prints. intros -> ->. cbn. rewrite map_app. reflexivity.
Qed.

Lemma prints_trace m lines : prints m lines -> Eff.trace m = map Stdout lines.
Proof. intros ->. reflexivity. Qed.

Lemma prints_result m lines : prints m lines -> Eff.result m = Ret tt.
Proof. intros ->. reflexivity. Qed.

Lemma stdout_Stdout lines : stdout (map Stdout lines) = lines.
Proof.
  induction lines as [|l ls IH]; [reflexivity|].
  cbn. unfold stdout in IH. rewrite IH. reflexivity.
Qed.

Lemma stdout_app t1 t2 : stdout (t1 ++ t2) = stdout t1 ++ stdout t2.
Proof. unfold stdout. apply omap_app. Qed.

Lemma requests_app t1 t2 : requests (t1 ++ t2) = requests t1 ++ requests t2.
Proof. unfold requests. apply omap_app. Qed.

Lemma requests_Stdout lines : requests (map Stdout lines) = [].
Proof. induction lines; [reflexivity|]. cbn. exact IHlines. Qed.

Lemma opened_app t1 t2 : opened (t1 ++ t2) = opened t1 ++ opened t2.
Proof. unfold opened. apply omap_app. Qed.

Lemma opened_Stdout lines : opened (map Stdout lines) = [].
Proof. induction lines; [reflexivity|]. cbn. exact IHlines. Qed.

(** ** Strings *)

Lemma startswith_spec p s :
  Py.startswith p s = true <-> exists t, s = p +:+ t.
Proof.
  revert s. induction p as [|a p IH]; intros s; cbn.
  - split; [intros _; exists s; reflexivity | reflexivity].
  - destruct s as [|b s].
    + split; [discriminate | intros [t Ht]; discriminate].
    + rewrite andb_true_iff, Ascii.eqb_eq, IH. split.
      * intros [-> [t ->]]. exists t. reflexivity.
      * intros [t Ht]. injection Ht as -> ->. split; [reflexivity | eauto].
Qed.

Lemma contains_spec p s :
  Py.contains p s = true <-> exists a b, s = a +:+ p +:+ b.
Proof.
  induction s as [|c s IH]; cbn.
  - rewrite orb_false_r, startswith_spec. split.
    + intros [t Ht]. exists EmptyString, t. exact Ht.
    + intros [a [b Hab]]. destruct a; [exists b; exact Hab | discriminate].
  - rewrite orb_true_iff, startswith_spec, IH. split.
    + intros [[t Ht] | [a [b Hab]]].
      * exists EmptyString, t. exact Ht.
      * exists (String c a), b. cbn. rewrite Hab. reflexivity.
    + intros [a [b Hab]]. destruct a as [|c' a]; cbn in Hab.
      * left. exists b. exact Hab.
      * right. injection Hab as -> ->. exists a, b. reflexivity.
Qed.

(** ** Code points *)

Lemma append_cons c (a b : string) : String c a +:+ b = String c (a +:+ b).
Proof. reflexivity. Qed.

Lemma width_bounds c s :
  (1 <= Py.width c s)%nat /\ (Py.width c s - 1 <= String.length s)%nat.
Proof.
  unfold Py.width. destruct s as [|c1 [|c2 [|c3 s3]]]; cbn [String.length];
    repeat match goal with
           | |- context [if ?b then _ else _] => destruct b
           end; lia.
Qed.

(** The width of a code point is decided by its own bytes: it is the
    same in every prefix that holds them. *)
Lemma width_prefix c t rest :
  (Py.width c (t +:+ rest) - 1 <= String.length t)%nat ->
  Py.width c t = Py.width c (t +:+ rest).
Proof.
  unfold Py.width.
  destruct t as [|c1 [|c2 [|c3 t3]]]; rewrite ?append_cons;
    cbn [String.length]; change (EmptyString +:+ rest) with rest.
  - destruct rest as [|c1 [|c2 [|c3 s3]]];
      repeat match goal with
             | |- context [if ?b then _ else _] => destruct b
             end; intros; (reflexivity || lia).
  - destruct rest as [|c2 [|c3 s3]];
      repeat match goal with
             | |- context [if ?b then _ else _] => destruct b
             end; intros; (reflexivity || lia).
  - destruct rest as [|c3 s3];
      repeat match goal with
             | |- context [if ?b then _ else _] => destruct b
             end; intros; (reflexivity || lia).
  - intros _. reflexivity.
Qed.

Lemma take_from_prefix s : forall k n, exists rest, s = Py.take_from k n s +:+ rest.
Proof.
  induction s as [|c s IH]; intros k n; [exists EmptyString; reflexivity|].
  cbn [Py.take_from]. destruct k as [|k].
  - destruct n as [|n]; [exists (String c s); reflexivity|].
    destruct (IH (Py.width c s - 1)%nat n) as [r Hr]. exists r.
    rewrite append_cons. f_equal. exact Hr.
  - destruct (IH k n) as [r Hr]. exists r. rewrite append_cons. f_equal. exact Hr.
Qed.

Lemma take_from_skipped s : forall k n,
  (k <= String.length s)%nat -> (k <= String.length (Py.take_from k n s))%nat.
Proof.
  induction s as [|c s IH]; intros k n Hk; cbn [String.length] in *; [lia|].
  cbn [Py.take_from]. destruct k as [|k]; [lia|].
  cbn [String.length]. specialize (IH k n). lia.
Qed.

Lemma width_take c s n :
  Py.width c (Py.take_from (Py.width c s - 1) n s) = Py.width c s.
Proof.
  destruct (take_from_prefix s (Py.width c s - 1)%nat n) as [rest Hrest].
  pose proof (take_from_skipped s (Py.width c s - 1)%nat n
                (proj2 (width_bounds c s))) as Hlen.
  set (t := Py.take_from (Py.width c s - 1) n s) in *.
  assert (Hw : Py.width c s = Py.width c (t +:+ rest)) by (rewrite <- Hrest; reflexivity).
  rewrite Hw. apply width_prefix. rewrite <- Hw. exact Hlen.
Qed.

Lemma len_take_from s : forall k n,
  (k <= String.length s)%nat ->
  Py.len_from k (Py.take_from k n s) = Nat.min n (Py.len_from k s).
Proof.
  induction s as [|c s IH]; intros k n Hk; cbn [String.length] in Hk.
  - cbn. lia.
  - cbn [Py.take_from]. destruct k as [|k].
    + destruct n as [|n]; [reflexivity|].
      cbn [Py.len_from]. rewrite width_take, IH by apply width_bounds. lia.
    + cbn [Py.len_from]. apply IH. lia.
Qed.

Lemma take_from_all s : forall k n,
  (Py.len_from k s <= n)%nat -> Py.take_from k n s = s.
Proof.
  induction s as [|c s IH]; intros k n Hn; [reflexivity|].
  cbn [Py.take_from Py.len_from] in *. destruct k as [|k].
  - destruct n as [|n]; [lia|]. f_equal. apply IH. lia.
  - f_equal. apply IH, Hn.
Qed.

Lemma take_prefix n s : exists rest, s = Py.take n s +:+ rest.
Proof. apply take_from_prefix. Qed.

Lemma len_take n s : Py.len (Py.take n s) = Z.min (Z.of_nat n) (Py.len s).
Proof.
  unfold Py.len, Py.take. rewrite len_take_from by lia. lia.
Qed.

Lemma take_all n s : Py.len s <= Z.of_nat n -> Py.take n s = s.
Proof. unfold Py.len. intros H. apply take_from_all. lia. Qed.

Lemma width_ascii c s : (Py.byte c < 128)%nat -> Py.width c s = 1%nat.
Proof.
  intros Hc. unfold Py.width, Py.second_of_three, Py.second_of_four, Py.in_range.
  destruct s as [|c1 [|c2 [|c3 s3]]]; try reflexivity;
    repeat match goal with
           | |- context [Nat.leb ?a (Py.byte c)] =>
               destruct (Nat.leb_spec a (Py.byte c)); [lia|]
           end; cbn [andb orb]; reflexivity.
Qed.

Lemma ascii_only_encodable s : Py.ascii_only s = true -> Py.encodable s = true.
Proof.
  unfold Py.encodable. induction s as [|c s IH]; [reflexivity|].
  cbn [Py.ascii_only Py.encodable_from]. intros H.
  apply andb_true_iff in H as [Hc Hs]. apply Nat.ltb_lt in Hc.
  rewrite (width_ascii c s Hc).
  destruct (Nat.leb_spec 128 (Py.byte c)); [lia|].
  cbn. apply IH, Hs.
Qed.

Lemma len_ascii s : Py.ascii_only s = true -> Py.len s = Z.of_nat (String.length s).
Proof.
  unfold Py.len. intros H. f_equal. induction s as [|c s IH]; [reflexivity|].
  cbn [Py.ascii_only Py.len_from String.length] in *.
  apply andb_true_iff in H as [Hc Hs]. apply Nat.ltb_lt in Hc.
  rewrite (width_ascii c s Hc). cbn. f_equal. apply IH, Hs.
Qed.

(** ** The report blocks *)

Lemma bind_prints {B} (m : M unit) (k : M B) lines :
  prints m lines ->
  Eff.bind m (fun _ => k) = (map Stdout lines ++ Eff.trace k, Eff.result k).
Proof. intros ->. destruct k. reflexivity. Qed.

Lemma echo_headers_prints hs : prints (echo_headers hs) (header_lines hs).
Proof.
  unfold echo_headers, header_lines.
  induction (items hs) as [|kv l IH]; [reflexivity|].
  cbn [for_each List.filter]. destruct (header_shown (fst kv)).
  - apply (prints_bind _ _ [_] _ (prints_print _) IH).
  - apply (prints_bind _ _ [] _ prints_ret IH).
Qed.

Lemma show_body_prints L text : prints (show_body L text) [body_line L text].
Proof.
  unfold show_body, body_line. destruct (json_loads L text); reflexivity.
Qed.

Lemma show_response_prints L resp text :
  prints (show_response L resp text) (response_lines L resp text).
Proof.
  unfold show_response, response_lines.
  apply prints_bind; [apply prints_print|].
  apply prints_bind; [apply echo_headers_prints|].
  apply (prints_bind _ _ [_]); [apply prints_print|].
  apply (prints_bind _ _ [_]); [apply show_body_prints|].
  reflexivity.
Qed.

Lemma bind_after {A B} (m : M A) (k : A -> M B) a :
  Eff.result m = Ret a ->
  Eff.bind m k = (Eff.trace m ++ Eff.trace (k a), Eff.result (k a)).
Proof.
  destruct m as [t o]. cbn [Eff.result Eff.trace fst snd]. intros ->.
  apply bind_returns. reflexivity.
Qed.

(** ** [main.py]: how a request goes *)

Section MainFacts.
Context (L : Lib).
Implicit Types (cfg : ClientConfig (account L) (Main.selector L)).

Lemma main_announce_returns cfg path :
  Eff.result (Main.announce L cfg path) = Ret tt.
Proof. reflexivity. Qed.

Lemma main_requests_announce cfg path :
  requests (Eff.trace (Main.announce L cfg path)) = [].
Proof. reflexivity. Qed.

Lemma main_verify_200 :
  prints (Main.verify_payment 200)
    ["✅ Payment verified successfully!";
     "   (x402HttpxClient automatically handled the payment flow)";
     "   - Received 402 Payment Required";
     "   - Generated payment authorization";
     "   - Sent request with X-PAYMENT header";
     "   - Received 200 OK with function result"].
Proof. reflexivity. Qed.

Lemma main_verify_402 :
  prints (Main.verify_payment 402)
    ["⚠️  Received 402 Payment Required";
     "   This means payment was not processed correctly";
     "   Check payment requirements and wallet balance"].
Proof. reflexivity. Qed.

Lemma main_verify_other status :
  status <> 200 -> status <> 402 ->
  prints (Main.verify_payment status)
    ["⚠️  Unexpected status code: " +:+ Py.str_int status].
Proof.
  intros H200 H402. unfold Main.verify_payment.
  destruct (Z.eqb_spec status 200); [contradiction|].
  destruct (Z.eqb_spec status 402); [contradiction|]. reflexivity.
Qed.

Lemma main_verify_prints status :
  exists lines, prints (Main.verify_payment status) lines.
Proof.
  destruct (Z.eq_dec status 200) as [->|H200]; [eexists; apply main_verify_200|].
  destruct (Z.eq_dec status 402) as [->|H402]; [eexists; apply main_verify_402|].
  eexists; apply main_verify_other; assumption.
Qed.

Lemma main_settlement_absent hs :
  lookup_header hs settlement_header = None ->
  prints (Main.check_settlement L hs)
    [Py.nl +:+ "⚠️  No X-Payment-Response header";
     "   Payment was verified but settlement header not present";
     "   (This is normal if settlement failed but verification passed)"].
Proof. unfold Main.check_settlement. intros ->. reflexivity. Qed.

Lemma main_settlement_decoded hs value d :
  lookup_header hs settlement_header = Some value ->
  decode_x_payment_response L value = inr (Object d) ->
  prints (Main.check_settlement L hs) (settlement_block d).
Proof. unfold Main.check_settlement. intros -> ->. reflexivity. Qed.

(** A decoded value that is no object: the first line of the block is
    printed, then [.get] raises. *)
Lemma main_settlement_not_object hs value e :
  lookup_header hs settlement_header = Some value ->
  decode_x_payment_response L value = inr (NotObject e) ->
  Main.check_settlement L hs
  = ([Stdout (Py.nl +:+ "✅ Payment Settlement Confirmed:")], Raise e).
Proof. unfold Main.check_settlement. intros -> ->. reflexivity. Qed.

Lemma main_settlement_malformed hs value e :
  lookup_header hs settlement_header = Some value ->
  decode_x_payment_response L value = inl e ->
  Main.check_settlement L hs = ([], Raise e).
Proof. unfold Main.check_settlement. intros -> ->. reflexivity. Qed.

(** The settlement check prints and returns, or raises having printed
    at most the first line of the block; it never leaves the process. *)
Lemma main_settlement_cases hs :
  (exists lines, prints (Main.check_settlement L hs) lines)
  \/ (exists lines e, Main.check_settlement L hs = (map Stdout lines, Raise e)).
Proof.
  destruct (lookup_header hs settlement_header) as [value|] eqn:Hh.
  - destruct (decode_x_payment_response L value) as [e|[d|e]] eqn:Hd.
    + right. exists [], e. eapply main_settlement_malformed; eassumption.
    + left. eexists. eapply main_settlement_decoded; eassumption.
    + right. eexists [_], e. eapply main_settlement_not_object; eassumption.
  - left. eexists. apply main_settlement_absent, Hh.
Qed.

Lemma main_request_refused cfg path e :
  client_get L cfg path = inl e ->
  Main.request L cfg path
  = (Eff.trace (Main.announce L cfg path) ++ [Get path], Raise e).
Proof.
  intros Hget. unfold Main.request.
  rewrite (bind_after _ _ tt (main_announce_returns cfg path)).
  cbn [Eff.trace Eff.result fst snd].
  rewrite emit_then, Hget. reflexivity.
Qed.

Lemma main_request_unreadable cfg path resp e :
  client_get L cfg path = inr resp ->
  read_text resp = inl e ->
  Main.request L cfg path
  = (Eff.trace (Main.announce L cfg path)
       ++ [Get path; Stdout (status_line resp)], Raise e).
Proof.
  intros Hget Hread. unfold Main.request.
  rewrite (bind_after _ _ tt (main_announce_returns cfg path)).
  cbn [Eff.trace Eff.result fst snd].
  rewrite emit_then, Hget. cbn [call]. rewrite bind_ret, print_then, Hread.
  reflexivity.
Qed.

Lemma main_request_read cfg path resp text :
  client_get L cfg path = inr resp ->
  read_text resp = inr text ->
  Main.request L cfg path
  = (Eff.trace (Main.announce L cfg path)
       ++ [Get path; Stdout (status_line resp)]
       ++ map Stdout (response_lines L resp text)
       ++ Eff.trace (Main.verify_payment (status_code resp))
       ++ Eff.trace (Main.check_settlement L (headers resp)),
     Eff.result (Main.check_settlement L (headers resp))).
Proof.
  intros Hget Hread. unfold Main.request.
  rewrite (bind_after _ _ tt (main_announce_returns cfg path)).
  cbn [Eff.trace Eff.result fst snd].
  rewrite emit_then, Hget. cbn [call]. rewrite bind_ret, print_then, Hread.
  cbn [call]. rewrite bind_ret.
  rewrite (bind_prints _ _ _ (show_response_prints L resp text)).
  destruct (main_verify_prints (status_code resp)) as [lines Hv].
  rewrite (bind_prints _ _ _ Hv), (prints_trace _ _ Hv).
  cbn [Eff.trace Eff.result fst snd]. reflexivity.
Qed.

End MainFacts.

(** ** [test_function.py]: how a request goes *)

Section TestFunctionFacts.
Context (L : Lib).
Implicit Types (cfg : ClientConfig (account L) (TestFunction.selector L)).

Lemma tf_verify_200 :
  prints (TestFunction.verify_payment 200)
    ["✅ Payment verified successfully!";
     "   (x402HttpxClient automatically handled the payment flow)"].
Proof. reflexivity. Qed.

Lemma tf_verify_402 :
  prints (TestFunction.verify_payment 402)
    ["⚠️  Received 402 Payment Required";
     "   Payment was not processed correctly"].
Proof. reflexivity. Qed.

Lemma tf_verify_other status :
  status <> 200 -> status <> 402 ->
  prints (TestFunction.verify_payment status)
    ["⚠️  Unexpected status code: " +:+ Py.str_int status].
Proof.
  intros H200 H402. unfold TestFunction.verify_payment.
  destruct (Z.eqb_spec status 200); [contradiction|].
  destruct (Z.eqb_spec status 402); [contradiction|]. reflexivity.
Qed.

Lemma tf_verify_prints status :
  exists lines, prints (TestFunction.verify_payment status) lines.
Proof.
  destruct (Z.eq_dec status 200) as [->|H200]; [eexists; apply tf_verify_200|].
  destruct (Z.eq_dec status 402) as [->|H402]; [eexists; apply tf_verify_402|].
  eexists; apply tf_verify_other; assumption.
Qed.

Lemma tf_settlement_absent hs :
  lookup_header hs settlement_header = None ->
  prints (TestFunction.check_settlement L hs)
    [Py.nl +:+ "⚠️  No X-Payment-Response header";
     "   (Payment verified but settlement header not present)"].
Proof. unfold TestFunction.check_settlement. intros ->. reflexivity. Qed.

Lemma tf_settlement_decoded hs value d :
  lookup_header hs settlement_header = Some value ->
  decode_x_payment_response L value = inr (Object d) ->
  prints (TestFunction.check_settlement L hs) (settlement_block d).
Proof. unfold TestFunction.check_settlement. intros -> ->. reflexivity. Qed.

(** A decoded value that is no object: the first line of the block is
    printed, then [.get] raises. *)
Lemma tf_settlement_not_object hs value e :
  lookup_header hs settlement_header = Some value ->
  decode_x_payment_response L value = inr (NotObject e) ->
  TestFunction.check_settlement L hs
  = ([Stdout (Py.nl +:+ "✅ Payment Settlement Confirmed:")], Raise e).
Proof. unfold TestFunction.check_settlement. intros -> ->. reflexivity. Qed.

Lemma tf_settlement_malformed hs value e :
  lookup_header hs settlement_header = Some value ->
  decode_x_payment_response L value = inl e ->
  TestFunction.check_settlement L hs = ([], Raise e).
Proof. unfold TestFunction.check_settlement. intros -> ->. reflexivity. Qed.

Lemma tf_settlement_cases hs :
  (exists lines, prints (TestFunction.check_settlement L hs) lines)
  \/ (exists lines e,
        TestFunction.check_settlement L hs = (map Stdout lines, Raise e)).
Proof.
  destruct (lookup_header hs settlement_header) as [value|] eqn:Hh.
  - destruct (decode_x_payment_response L value) as [e|[d|e]] eqn:Hd.
    + right. exists [], e. eapply tf_settlement_malformed; eassumption.
    + left. eexists. eapply tf_settlement_decoded; eassumption.
    + right. eexists [_], e. eapply tf_settlement_not_object; eassumption.
  - left. eexists. apply tf_settlement_absent, Hh.
Qed.

Lemma tf_request_refused cfg path e :
  client_get L cfg path = inl e ->
  TestFunction.request L cfg path = ([Get path], Raise e).
Proof.
  intros Hget. unfold TestFunction.request. rewrite emit_then, Hget. reflexivity.
Qed.

Lemma tf_request_unreadable cfg path resp e :
  client_get L cfg path = inr resp ->
  read_text resp = inl e ->
  TestFunction.request L cfg path
  = ([Get path; Stdout (status_line resp)], Raise e).
Proof.
  intros Hget Hread. unfold TestFunction.request.
  rewrite emit_then, Hget. cbn [call]. rewrite bind_ret, print_then, Hread.
  reflexivity.
Qed.

Lemma tf_request_read cfg path resp text :
  client_get L cfg path = inr resp ->
  read_text resp = inr text ->
  TestFunction.request L cfg path
  = ([Get path; Stdout (status_line resp)]
       ++ map Stdout (response_lines L resp text)
       ++ Eff.trace (TestFunction.verify_payment (status_code resp))
       ++ Eff.trace (TestFunction.check_settlement L (headers resp)),
     Eff.result (TestFunction.check_settlement L (headers resp))).
Proof.
  intros Hget Hread. unfold TestFunction.request.
  rewrite emit_then, Hget. cbn [call]. rewrite bind_ret, print_then, Hread.
  cbn [call]. rewrite bind_ret.
  rewrite (bind_prints _ _ _ (show_response_prints L resp text)).
  destruct (tf_verify_prints (status_code resp)) as [lines Hv].
  rewrite (bind_prints _ _ _ Hv), (prints_trace _ _ Hv).
  cbn [Eff.trace Eff.result fst snd]. reflexivity.
Qed.

End TestFunctionFacts.

(** ** The request block never leaves the process, and asks once *)

Lemma main_request_outcome L cfg path :
  Eff.result (Main.request L cfg path) = Ret tt
  \/ exists e, Eff.result (Main.request L cfg path) = Raise e.
Proof.
  destruct (client_get L cfg path) as [e|resp] eqn:Hget.
  { right. exists e. rewrite (main_request_refused L cfg path e Hget). reflexivity. }
  destruct (read_text resp) as [e|text] eqn:Hread.
  { right. exists e.
    rewrite (main_request_unreadable L cfg path resp e Hget Hread). reflexivity. }
  rewrite (main_request_read L cfg path resp text Hget Hread).
  cbn [Eff.result snd].
  destruct (main_settlement_cases L (headers resp)) as [[lines H]|(lines & e & H)];
    rewrite H; [left | right; exists e]; reflexivity.
Qed.

Lemma tf_request_outcome L cfg path :
  Eff.result (TestFunction.request L cfg path) = Ret tt
  \/ exists e, Eff.result (TestFunction.request L cfg path) = Raise e.
Proof.
  destruct (client_get L cfg path) as [e|resp] eqn:Hget.
  { right. exists e. rewrite (tf_request_refused L cfg path e Hget). reflexivity. }
  destruct (read_text resp) as [e|text] eqn:Hread.
  { right. exists e.
    rewrite (tf_request_unreadable L cfg path resp e Hget Hread). reflexivity. }
  rewrite (tf_request_read L cfg path resp text Hget Hread).
  cbn [Eff.result snd].
  destruct (tf_settlement_cases L (headers resp)) as [[lines H]|(lines & e & H)];
    rewrite H; [left | right; exists e]; reflexivity.
Qed.

Lemma tf_request_once L cfg path :
  requests (Eff.trace (TestFunction.request L cfg path)) = [path].
Proof.
  destruct (client_get L cfg path) as [e|resp] eqn:Hget.
  { rewrite (tf_request_refused L cfg path e Hget). reflexivity. }
  destruct (read_text resp) as [e|text] eqn:Hread.
  { rewrite (tf_request_unreadable L cfg path resp e Hget Hread). reflexivity. }
  rewrite (tf_request_read L cfg path resp text Hget Hread).
  cbn [Eff.trace fst].
  destruct (tf_verify_prints (status_code resp)) as [l1 H1]. rewrite H1.
  cbn [Eff.trace fst].
  rewrite !requests_app, !requests_Stdout.
  destruct (tf_settlement_cases L (headers resp)) as [[l2 H2]|(l2 & e & H2)];
    rewrite H2; cbn [Eff.trace fst]; rewrite ?requests_Stdout; reflexivity.
Qed.

(** ** The [try]/[except] and [async with] around the request *)

Lemma try_except_returns {A} (body : M A) handler a :
  Eff.result body = Ret a -> try_except body handler = body.
Proof. destruct body as [t o]. cbn. intros ->. reflexivity. Qed.

Lemma try_except_raises {A} (body : M A) handler t e :
  body = (t, Raise e) ->
  try_except body handler
  = (t ++ Eff.trace (handler e), Eff.result (handler e)).
Proof. intros ->. cbn. destruct (handler e). reflexivity. Qed.

Lemma async_with_eq {A} open (body : M A) :
  async_with (inr tt) open body
  = (open :: Eff.trace body ++ [ClientClose], Eff.result body).
Proof. destruct body. reflexivity. Qed.

(** A client that cannot be built: the block is not entered. *)
Lemma async_with_refused {A} e open (body : M A) :
  async_with (inl e) open body = ([], Raise e).
Proof. reflexivity. Qed.

Lemma guarded_returns (body : M unit) open :
  Eff.result body = Ret tt ->
  async_with (inr tt) open (try_except body report_error)
  = (open :: Eff.trace body ++ [ClientClose], Ret tt).
Proof.
  intros H. rewrite (try_except_returns _ _ tt H), async_with_eq, H. reflexivity.
Qed.

Lemma guarded_raises (body : M unit) open t e :
  body = (t, Raise e) ->
  async_with (inr tt) open (try_except body report_error)
  = (open :: t
       ++ [Stdout (Py.nl +:+ "❌ Error occurred: " +:+ exn_str e);
           Stderr (exn_traceback e); ClientClose],
     Ret tt).
Proof.
  intros H. rewrite (try_except_raises _ _ t e H), async_with_eq.
  cbn. rewrite <- app_assoc. reflexivity.
Qed.

Lemma main_refused L cfg path e :
  x402HttpxClient L cfg = inl e -> Main.main L cfg path = ([], Raise e).
Proof. unfold Main.main. intros ->. reflexivity. Qed.

Lemma tf_send_refused L cfg path e :
  x402HttpxClient L cfg = inl e -> TestFunction.send L cfg path = ([], Raise e).
Proof. unfold TestFunction.send. intros ->. reflexivity. Qed.

Lemma tf_send_once L cfg path :
  x402HttpxClient L cfg = inr tt ->
  requests (Eff.trace (TestFunction.send L cfg path)) = [path].
Proof.
  intros Hopen. unfold TestFunction.send. rewrite Hopen.
  pose proof (tf_request_once L cfg path) as Honce.
  destruct (tf_request_outcome L cfg path) as [H|[e H]].
  - rewrite (guarded_returns _ _ H). cbn [Eff.trace fst].
    change (requests (_ :: ?t)) with (requests t).
    rewrite requests_app, Honce. reflexivity.
  - destruct (TestFunction.request L cfg path) as [t o] eqn:Hreq.
    cbn in H. subst o. rewrite (guarded_raises _ _ t e eq_refl).
    cbn [Eff.trace fst] in *.
    change (requests (_ :: ?t)) with (requests t).
    rewrite requests_app, Honce. reflexivity.
Qed.

(** ** Encoding the query string *)

Lemma quote_plus_encodable s :
  Py.encodable s = true -> Py.quote_plus s = Some (Py.quote_plus_bytes s).
Proof. unfold Py.quote_plus. intros ->. reflexivity. Qed.

Lemma quote_plus_refused s : Py.encodable s = false -> Py.quote_plus s = None.
Proof. unfold Py.quote_plus. intros ->. reflexivity. Qed.

(** [urlencode] on text gives what [urlencode] gives on its bytes, when
    it gives anything. *)
Lemma urlencode_items_bytes d l :
  Py.urlencode_items d = inr l ->
  l = map (fun kv => Py.quote_plus_bytes (fst kv) +:+ "="
                     +:+ Py.quote_plus_bytes (snd kv)) d.
Proof.
  revert l. induction d as [|[k v] d IH]; intros l H; cbn [Py.urlencode_items] in H.
  - injection H as <-. reflexivity.
  - unfold Py.quote_plus in H.
    destruct (Py.encodable k); [|discriminate].
    destruct (Py.encodable v); [|discriminate].
    destruct (Py.urlencode_items d) as [bad|l']; [discriminate|].
    injection H as <-. cbn [map fst snd]. f_equal. apply IH. reflexivity.
Qed.

Lemma urlencode_bytes d q :
  Py.urlencode d = inr q -> q = Py.urlencode_bytes d.
Proof.
  unfold Py.urlencode, Py.urlencode_bytes.
  destruct (Py.urlencode_items d) as [bad|l] eqn:Hl; [discriminate|].
  intros H. injection H as <-. rewrite (urlencode_items_bytes d l Hl). reflexivity.
Qed.

(** [urlencode] succeeds exactly on a dict whose keys and values can all
    be encoded. *)
Lemma urlencode_items_encodable d :
  (exists l, Py.urlencode_items d = inr l)
  <-> forallb (fun kv => (Py.encodable (fst kv) && Py.encodable (snd kv))%bool) d
      = true.
Proof.
  induction d as [|[k v] d IH]; cbn [Py.urlencode_items forallb fst snd].
  - split; [reflexivity | eauto].
  - unfold Py.quote_plus.
    destruct (Py.encodable k); cbn [andb];
      [|split; [intros [l H]; discriminate | discriminate]].
    destruct (Py.encodable v); cbn [andb];
      [|split; [intros [l H]; discriminate | discriminate]].
    rewrite <- IH.
    destruct (Py.urlencode_items d) as [bad|l]; split.
    + intros [l H]. discriminate.
    + intros [l H]. discriminate.
    + eauto.
    + eauto.
Qed.

Lemma urlencode_encodable d :
  (exists q, Py.urlencode d = inr q)
  <-> forallb (fun kv => (Py.encodable (fst kv) && Py.encodable (snd kv))%bool) d
      = true.
Proof.
  rewrite <- urlencode_items_encodable. unfold Py.urlencode.
  destruct (Py.urlencode_items d) as [bad|l]; split.
  - intros [q H]. discriminate.
  - intros [l H]. discriminate.
  - eauto.
  - eauto.
Qed.

(** The exception of a failed call is that of the first text that cannot
    be encoded. *)
Lemma urlencode_call L d :
  (exists q, Py.urlencode d = inr q /\ urlencode L d = inr q)
  \/ (exists bad, Py.urlencode d = inl bad
                  /\ urlencode L d = inl (UnicodeEncodeError L bad)).
Proof.
  unfold urlencode. destruct (Py.urlencode d) as [bad|q]; [right | left]; eauto.
Qed.

Lemma or_else_falsy o d : Py.truthy o = false -> Py.or_else o d = d.
Proof.
  destruct o as [s|]; [|reflexivity]. cbn. intros ->. reflexivity.
Qed.

Lemma or_else_truthy o d : Py.truthy o = true -> Py.or_else o d = Py.the o.
Proof.
  destruct o as [s|]; [|discriminate]. cbn. intros ->. reflexivity.
Qed.

(** * Specification properties *)

(** C1. For every list of payment requirement options and every
    caller-supplied network filter, scheme filter and max value, the
    custom selector of either script returns what the library's default
    selector returns with the network filter ["base"] and the same scheme
    filter and max value; so the result is the same for any two
    caller-supplied network filters. *)
Theorem custom_payment_selector_fixed_network (L : Lib)
    (accepts : list (requirement L)) (network_filter scheme_filter : option string)
    (max_value : option Z) :
  Main.custom_payment_selector L accepts network_filter scheme_filter max_value
    = default_payment_requirements_selector L accepts (Some "base")
        scheme_filter max_value
  /\ TestFunction.custom_payment_selector L accepts network_filter
       scheme_filter max_value
     = default_payment_requirements_selector L accepts (Some "base")
         scheme_filter max_value
  /\ (forall other : option string,
        Main.custom_payment_selector L accepts other scheme_filter max_value
        = Main.custom_payment_selector L accepts network_filter
            scheme_filter max_value)
  /\ (forall other : option string,
        TestFunction.custom_payment_selector L accepts other scheme_filter
          max_value
        = TestFunction.custom_payment_selector L accepts network_filter
            scheme_filter max_value).
Proof. repeat split. Qed.

(** The selector on a concrete offer list: a caller asking for another
    network still gets the first ["base"] offer. *)
Example custom_payment_selector_demo :
  Main.custom_payment_selector Demo.offline Demo.offers (Some "polygon") None None
  = inr {| Demo.network := "base-sepolia"; Demo.scheme := "exact";
           Demo.amount := 7 |}.
Proof. reflexivity. Qed.

(** C9. With no command-line arguments the parameterized script prints
    the usage line and the whole registry (each name with its description
    and default parameters), exits with status 1, and makes no network
    call, whatever the environment holds. *)
Theorem no_arguments_prints_registry (L : Lib) (env : gmap string string) :
  TestFunction.script L env []
  = (map Stdout
       ["Usage: python test_function.py <function_name> [param=value ...]";
        Py.nl +:+ "Available functions:";
        "  toolzv4: IPv4 Network Connectivity Testing Tool";
        "    Default params: {'target': '8.8.8.8', 'count': '4', 'timeout': '5000'}";
        "  url-qr-code-generator: URL QR Code Generator";
        "    Default params: {'url': 'https://example.com', 'size': '200'}";
        "  email-validator: Email Validator - Validates email address format using RFC-style patterns";
        "    Default params: {'email': 'user@example.com'}"],
     Exit 1)
  /\ exit_status (TestFunction.script L env []) = 1
  /\ exit_status (TestFunction.script L env []) <> 0
  /\ requests (Eff.trace (TestFunction.script L env [])) = []
  /\ (forall name cfg, Py.dict_get name TestFunction.FUNCTION_CONFIGS = Some cfg ->
        In (Stdout ("  " +:+ name +:+ ": " +:+ TestFunction.description cfg))
           (Eff.trace (TestFunction.script L env []))
        /\ In (Stdout ("    Default params: "
                       +:+ Py.repr_dict (TestFunction.default_params cfg)))
              (Eff.trace (TestFunction.script L env []))).
Proof.
  assert (Hrun : TestFunction.script L env []
                 = (Eff.trace (TestFunction.print_usage), Exit 1)) by reflexivity.
  split; [rewrite Hrun; vm_compute; reflexivity|].
  split; [reflexivity|]. split; [rewrite Hrun; discriminate|].
  split; [reflexivity|].
  intros name cfg Hget. rewrite Hrun. cbn [Eff.trace fst].
  unfold TestFunction.FUNCTION_CONFIGS in Hget. cbn [Py.dict_get] in Hget.
  repeat match type of Hget with
         | (if ?b then _ else _) = _ => destruct b eqn:?
         end; try discriminate;
    injection Hget as <-;
    match goal with H : String.eqb _ name = true |- _ =>
      apply String.eqb_eq in H; subst name end;
    split; vm_compute; tauto.
Qed.

(** C5. Run as [toolzv4 target=1.2.3.4], with no function-name override
    in the environment, the parameterized script parses the function name
    [toolzv4] and the single override, merges it over the defaults into
    [target=1.2.3.4, count=4, timeout=5000] (the keys in the order of the
    defaults, the overridden value in place), encodes that into the query
    string [target=1.2.3.4&count=4&timeout=5000] and builds the path
    [/functions/v1/toolzv4?target=1.2.3.4&count=4&timeout=5000].  In a
    run with a signing key that the account library accepts, a base URL
    that is well-formed text and a client that could be built, the script
    shows that path and those parameters, and that path is the one
    request it sends. *)
Theorem toolzv4_target_override (L : Lib) (env : gmap string string) :
  Py.truthy (env !! "FUNCTION_NAME") = false ->
  let args := ["toolzv4"; "target=1.2.3.4"] in
  let merged := [("target", "1.2.3.4"); ("count", "4"); ("timeout", "5000")] in
  let query := "target=1.2.3.4&count=4&timeout=5000" in
  let path := "/functions/v1/toolzv4?target=1.2.3.4&count=4&timeout=5000" in
  TestFunction.parse_args env args = ([], Ret ("toolzv4", [("target", "1.2.3.4")]))
  /\ (exists cfg,
        Py.dict_get "toolzv4" TestFunction.FUNCTION_CONFIGS = Some cfg
        /\ TestFunction.default_params cfg
           = [("target", "8.8.8.8"); ("count", "4"); ("timeout", "5000")]
        /\ TestFunction.final_params cfg [("target", "1.2.3.4")] = merged)
  /\ Py.urlencode merged = inr query
  /\ TestFunction.endpoint_path "toolzv4" query = path
  /\ (forall acct,
        Py.truthy (env !! "PRIVATE_KEY") = true ->
        from_key L (Py.the (env !! "PRIVATE_KEY")) = inr acct ->
        Py.encodable (Py.or_else (env !! "RESOURCE_SERVER_URL")
                        TestFunction.default_base_url) = true ->
        x402HttpxClient L (tf_client_config L env acct) = inr tt ->
        requests (Eff.trace (TestFunction.script L env args)) = [path]
        /\ In (Stdout ("🌐 Endpoint: " +:+ path))
              (Eff.trace (TestFunction.script L env args))
        /\ In (Stdout ("📋 Parameters: "
                       +:+ "{'target': '1.2.3.4', 'count': '4', 'timeout': '5000'}"))
              (Eff.trace (TestFunction.script L env args))).
Proof.
  intros Hoverride args merged query path.
  assert (Hparse : TestFunction.parse_args env args
                   = ([], Ret ("toolzv4", [("target", "1.2.3.4")]))).
  { unfold TestFunction.parse_args, args.
    rewrite (or_else_falsy _ _ Hoverride), Hoverride. reflexivity. }
  split; [exact Hparse|].
  split; [eexists; repeat split|].
  split; [reflexivity|]. split; [reflexivity|].
  intros acct Hkey Hacct _ Hopen.
  unfold TestFunction.script. rewrite (bind_returns _ _ _ _ Hparse).
  cbn [fst snd app Eff.trace]. unfold TestFunction.test_function.
  change (Py.dict_get "toolzv4" TestFunction.FUNCTION_CONFIGS)
    with (Some {| TestFunction.description := "IPv4 Network Connectivity Testing Tool";
                  TestFunction.default_params :=
                    [("target", "8.8.8.8"); ("count", "4"); ("timeout", "5000")] |}).
  cbv beta iota zeta.
  match goal with
  | |- context [urlencode L ?d] =>
      change (urlencode L d) with (@inr exn string query)
  end.
  cbn [call]. rewrite bind_ret, Hkey. cbn [negb]. rewrite Hacct. cbn [call].
  rewrite bind_ret.
  match goal with
  | |- context [repr L ?d] => rewrite (repr_ascii L d eq_refl)
  end.
  rewrite !print_then. cbn [Eff.trace fst].
  split; [|split].
  - change (requests (?a :: ?t)) with
      (match a with Get p => p :: requests t | _ => requests t end).
    cbv iota.
    repeat (change (requests (?a :: ?t)) with
              (match a with Get p => p :: requests t | _ => requests t end);
            cbv iota).
    apply (tf_send_once L (tf_client_config L env acct)), Hopen.
  - do 2 right. left. reflexivity.
  - do 5 right. left. reflexivity.
Qed.

Lemma toolzv4_target_override_witness :
  Py.truthy (Demo.env_ok !! "FUNCTION_NAME") = false
  /\ requests (Eff.trace (TestFunction.script Demo.paid Demo.env_ok
                            ["toolzv4"; "target=1.2.3.4"]))
     = ["/functions/v1/toolzv4?target=1.2.3.4&count=4&timeout=5000"].
Proof.
  split; [reflexivity|].
  pose proof (toolzv4_target_override Demo.paid Demo.env_ok eq_refl) as H.
  cbv zeta in H. destruct H as (_ & _ & _ & _ & H).
  apply (H ("0xA11CE" +:+ "0x01")); reflexivity.
Defined.

(** ** The scripts around the request block *)

Lemma exit_status_bind_prints {B} (m : M unit) (k : M B) lines :
  prints m lines -> exit_status (Eff.bind m (fun _ => k)) = exit_status k.
Proof. intros H. rewrite (bind_prints _ _ _ H). reflexivity. Qed.

(** [main.py] with its variables set and an accepted key: some lines,
    then [main()] on the client arguments made from the environment. *)
Lemma main_script_configured L env acct :
  Py.all [env !! "PRIVATE_KEY"; env !! "RESOURCE_SERVER_URL"; env !! "ENDPOINT_PATH"]
  = true ->
  from_key L (Py.the (env !! "PRIVATE_KEY")) = inr acct ->
  exists before,
    Main.script L env
    = (map Stdout before
         ++ Eff.trace (Main.main L (main_client_config L env acct)
                         (Py.the (env !! "ENDPOINT_PATH"))),
       Eff.result (Main.main L (main_client_config L env acct)
                     (Py.the (env !! "ENDPOINT_PATH")))).
Proof.
  intros Hall Hacct. unfold Main.script, main_client_config, auth_headers.
  rewrite Hall. cbn [negb].
  destruct (Py.truthy (env !! "SUPABASE_ANON_KEY")).
  - rewrite print_then. cbn [Eff.trace Eff.result fst snd ret].
    eexists [_; _].
    rewrite (bind_returns _ _ _ _ eq_refl), Hacct. cbn [call].
    rewrite bind_ret, print_then. cbn [Eff.trace Eff.result fst snd app map].
    reflexivity.
  - rewrite bind_ret, Hacct. cbn [call]. rewrite bind_ret, print_then.
    eexists [_]. reflexivity.
Qed.

(** [test_function] on a registered function: the query string is built
    first, and a text that cannot be encoded ends the call there. *)
Lemma tf_test_function_unencodable L env name cfg params bad :
  Py.dict_get name TestFunction.FUNCTION_CONFIGS = Some cfg ->
  Py.urlencode (TestFunction.final_params cfg params) = inl bad ->
  TestFunction.test_function L env name params
  = ([], Raise (UnicodeEncodeError L bad)).
Proof.
  unfold TestFunction.test_function, urlencode. intros -> Hq.
  cbv beta iota zeta. rewrite Hq. reflexivity.
Qed.

Lemma tf_test_function_encoded L env name cfg params q :
  Py.dict_get name TestFunction.FUNCTION_CONFIGS = Some cfg ->
  Py.urlencode (TestFunction.final_params cfg params) = inr q ->
  TestFunction.test_function L env name params
  = (if negb (Py.truthy (env !! "PRIVATE_KEY")) then
       print "❌ Error: PRIVATE_KEY environment variable is required" ;;
       print "Set it in .env file or environment"
     else
       acct <- call (from_key L (Py.the (env !! "PRIVATE_KEY"))) ;;
       print ("🧪 Testing Function: " +:+ name) ;;
       print ("📝 Description: " +:+ TestFunction.description cfg) ;;
       print ("🌐 Endpoint: " +:+ TestFunction.endpoint_path name q) ;;
       print ("📡 Base URL: " +:+ cfg_base_url (tf_client_config L env acct)) ;;
       print ("🔐 Account: " +:+ address L acct) ;;
       print ("📋 Parameters: " +:+ repr L (TestFunction.final_params cfg params)) ;;
       print "" ;;
       print rule ;;
       print "x402 Payment Flow:" ;;
       print rule ;;
       print "1. Initial request (expecting 402 Payment Required)..." ;;
       TestFunction.send L (tf_client_config L env acct)
         (TestFunction.endpoint_path name q)).
Proof.
  unfold TestFunction.test_function, urlencode. intros -> Hq.
  cbv beta iota zeta. rewrite Hq. cbn [call]. rewrite bind_ret. reflexivity.
Qed.

Lemma tf_test_function_known L env name cfg params q acct :
  Py.dict_get name TestFunction.FUNCTION_CONFIGS = Some cfg ->
  Py.urlencode (TestFunction.final_params cfg params) = inr q ->
  Py.truthy (env !! "PRIVATE_KEY") = true ->
  from_key L (Py.the (env !! "PRIVATE_KEY")) = inr acct ->
  exists before,
    TestFunction.test_function L env name params
    = (map Stdout before
         ++ Eff.trace (TestFunction.send L (tf_client_config L env acct)
                         (TestFunction.endpoint_path name q)),
       Eff.result (TestFunction.send L (tf_client_config L env acct)
                     (TestFunction.endpoint_path name q))).
Proof.
  intros Hcfg Hq Hkey Hacct.
  rewrite (tf_test_function_encoded L env name cfg params q Hcfg Hq), Hkey.
  cbn [negb]. rewrite Hacct. cbn [call].
  rewrite bind_ret, !print_then. cbn [Eff.trace Eff.result fst snd].
  eexists [_; _; _; _; _; _; _; _; _; _; _]. reflexivity.
Qed.

Lemma main_returns L cfg path :
  x402HttpxClient L cfg = inr tt -> Eff.result (Main.main L cfg path) = Ret tt.
Proof.
  intros Hopen. unfold Main.main. rewrite Hopen.
  destruct (main_request_outcome L cfg path) as [H|[e H]].
  - rewrite (guarded_returns _ _ H). reflexivity.
  - destruct (Main.request L cfg path) as [t o]. cbn in H. subst o.
    rewrite (guarded_raises _ _ t e eq_refl). reflexivity.
Qed.

Lemma tf_send_returns L cfg path :
  x402HttpxClient L cfg = inr tt ->
  Eff.result (TestFunction.send L cfg path) = Ret tt.
Proof.
  intros Hopen. unfold TestFunction.send. rewrite Hopen.
  destruct (tf_request_outcome L cfg path) as [H|[e H]].
  - rewrite (guarded_returns _ _ H). reflexivity.
  - destruct (TestFunction.request L cfg path) as [t o]. cbn in H. subst o.
    rewrite (guarded_raises _ _ t e eq_refl). reflexivity.
Qed.

(** C6. Whatever exception the request or the handling of the response
    raises, the handler of either script catches it, prints its message
    and its stack trace, the client is closed, and the block returns
    normally.  So a run of either script that has built its client and
    so reaches the request ends with exit status 0, whatever the library
    calls inside the block do.  (The client is built outside the [try]:
    the scripts do not catch what building it raises.) *)
Theorem request_exceptions_are_swallowed (L : Lib)
    (cfg : ClientConfig (account L) (Main.selector L))
    (cfg' : ClientConfig (account L) (TestFunction.selector L))
    (path : string) :
  (forall t e,
      x402HttpxClient L cfg = inr tt ->
      Main.request L cfg path = (t, Raise e) ->
      Main.main L cfg path
      = (ClientOpen (cfg_base_url cfg) (cfg_headers cfg) :: t
           ++ [Stdout (Py.nl +:+ "❌ Error occurred: " +:+ exn_str e);
               Stderr (exn_traceback e); ClientClose],
         Ret tt))
  /\ (forall t e,
        x402HttpxClient L cfg' = inr tt ->
        TestFunction.request L cfg' path = (t, Raise e) ->
        TestFunction.send L cfg' path
        = (ClientOpen (cfg_base_url cfg') (cfg_headers cfg') :: t
             ++ [Stdout (Py.nl +:+ "❌ Error occurred: " +:+ exn_str e);
                 Stderr (exn_traceback e); ClientClose],
           Ret tt))
  /\ (x402HttpxClient L cfg = inr tt -> exit_status (Main.main L cfg path) = 0)
  /\ (x402HttpxClient L cfg' = inr tt ->
      exit_status (TestFunction.send L cfg' path) = 0)
  /\ (forall env acct,
        Py.all [env !! "PRIVATE_KEY"; env !! "RESOURCE_SERVER_URL";
                env !! "ENDPOINT_PATH"] = true ->
        from_key L (Py.the (env !! "PRIVATE_KEY")) = inr acct ->
        x402HttpxClient L (main_client_config L env acct) = inr tt ->
        exit_status (Main.script L env) = 0)
  /\ (forall env name fcfg params q acct,
        Py.dict_get name TestFunction.FUNCTION_CONFIGS = Some fcfg ->
        Py.urlencode (TestFunction.final_params fcfg params) = inr q ->
        Py.truthy (env !! "PRIVATE_KEY") = true ->
        from_key L (Py.the (env !! "PRIVATE_KEY")) = inr acct ->
        Py.encodable (Py.or_else (env !! "RESOURCE_SERVER_URL")
                        TestFunction.default_base_url) = true ->
        x402HttpxClient L (tf_client_config L env acct) = inr tt ->
        exit_status (TestFunction.test_function L env name params) = 0).
Proof.
  split; [intros t e Hopen H; unfold Main.main; rewrite Hopen;
          apply guarded_raises, H|].
  split; [intros t e Hopen H; unfold TestFunction.send; rewrite Hopen;
          apply guarded_raises, H|].
  split; [intros Hopen; unfold exit_status; rewrite main_returns by exact Hopen;
          reflexivity|].
  split; [intros Hopen; unfold exit_status; rewrite tf_send_returns by exact Hopen;
          reflexivity|].
  split.
  - intros env acct Hall Hacct Hopen.
    destruct (main_script_configured L env acct Hall Hacct) as (before & ->).
    unfold exit_status. cbn [Eff.result snd].
    rewrite main_returns by exact Hopen. reflexivity.
  - intros env name fcfg params q acct Hcfg Hq Hkey Hacct _ Hopen.
    destruct (tf_test_function_known L env name fcfg params q acct Hcfg Hq Hkey Hacct)
      as (before & ->).
    unfold exit_status. cbn [Eff.result snd].
    rewrite tf_send_returns by exact Hopen. reflexivity.
Qed.

Lemma request_exceptions_are_swallowed_witness :
  TestFunction.request Demo.offline (Demo.client Demo.offline "0xA11CE")
    "/functions/v1/toolzv4"
  = ([Get "/functions/v1/toolzv4"], Raise Demo.refused)
  /\ TestFunction.send Demo.offline (Demo.client Demo.offline "0xA11CE")
       "/functions/v1/toolzv4"
     = ([ClientOpen "https://example.test" []; Get "/functions/v1/toolzv4";
         Stdout (Py.nl +:+ "❌ Error occurred: connection refused");
         Stderr "Traceback: httpx.ConnectError"; ClientClose],
        Ret tt).
Proof.
  split; [reflexivity|].
  apply (proj1 (proj2 (request_exceptions_are_swallowed Demo.offline
                         (Demo.client Demo.offline "0xA11CE")
                         (Demo.client Demo.offline "0xA11CE")
                         "/functions/v1/toolzv4"))
           [Get "/functions/v1/toolzv4"] Demo.refused);
    reflexivity.
Defined.

(** What building the client raises is not caught: nothing is opened,
    nothing is requested, and the exception leaves [main()]. *)
Lemma unbuilt_client_is_not_caught :
  x402HttpxClient Demo.offline
    (main_client_config Demo.offline Cases.env_bad_url ("0xA11CE" +:+ "0x01"))
  = inl Demo.invalid_url
  /\ process (Main.script Demo.offline Cases.env_bad_url)
     = ([Stdout "Initialized account: 0xA11CE0x01";
         Stderr "Traceback: httpx.InvalidURL"], 1).
Proof. split; reflexivity. Qed.

(** C7 (amended). Once a response has been received and its body read
    and decoded, the report of either script holds, between the banner
    and the settlement part, the lines chosen by the status code alone:
    the "verified" lines for 200, the "402 Payment Required" lines for
    402, and the one "Unexpected status code" line for any other status;
    exactly one of the three is printed.  When the body cannot be read or
    decoded, the status line is all that is printed about the response:
    no classification follows, whatever the status. *)
Theorem classification_by_status (L : Lib)
    (cfg : ClientConfig (account L) (Main.selector L))
    (cfg' : ClientConfig (account L) (TestFunction.selector L))
    (path : string) (resp resp' : Response) :
  client_get L cfg path = inr resp ->
  client_get L cfg' path = inr resp' ->
  (forall text,
      read_text resp = inr text ->
      Eff.trace (Main.request L cfg path)
      = Eff.trace (Main.announce L cfg path)
          ++ [Get path; Stdout (status_line resp)]
          ++ map Stdout (response_lines L resp text)
          ++ Eff.trace (Main.verify_payment (status_code resp))
          ++ Eff.trace (Main.check_settlement L (headers resp)))
  /\ (forall text',
        read_text resp' = inr text' ->
        Eff.trace (TestFunction.request L cfg' path)
        = [Get path; Stdout (status_line resp')]
            ++ map Stdout (response_lines L resp' text')
            ++ Eff.trace (TestFunction.verify_payment (status_code resp'))
            ++ Eff.trace (TestFunction.check_settlement L (headers resp')))
  /\ (forall status,
        Main.verify_payment status
        = (map Stdout
             (if status =? 200 then
                ["✅ Payment verified successfully!";
                 "   (x402HttpxClient automatically handled the payment flow)";
                 "   - Received 402 Payment Required";
                 "   - Generated payment authorization";
                 "   - Sent request with X-PAYMENT header";
                 "   - Received 200 OK with function result"]
              else if status =? 402 then
                ["⚠️  Received 402 Payment Required";
                 "   This means payment was not processed correctly";
                 "   Check payment requirements and wallet balance"]
              else ["⚠️  Unexpected status code: " +:+ Py.str_int status]),
           Ret tt))
  /\ (forall status,
        TestFunction.verify_payment status
        = (map Stdout
             (if status =? 200 then
                ["✅ Payment verified successfully!";
                 "   (x402HttpxClient automatically handled the payment flow)"]
              else if status =? 402 then
                ["⚠️  Received 402 Payment Required";
                 "   Payment was not processed correctly"]
              else ["⚠️  Unexpected status code: " +:+ Py.str_int status]),
           Ret tt))
  /\ (forall e,
        read_text resp = inl e ->
        Main.request L cfg path
        = (Eff.trace (Main.announce L cfg path)
             ++ [Get path; Stdout (status_line resp)],
           Raise e))
  /\ (forall e,
        read_text resp' = inl e ->
        TestFunction.request L cfg' path
        = ([Get path; Stdout (status_line resp')], Raise e)).
Proof.
  intros Hget Hget'.
  split; [intros text Hread;
          rewrite (main_request_read L cfg path resp text Hget Hread);
          reflexivity|].
  split; [intros text' Hread';
          rewrite (tf_request_read L cfg' path resp' text' Hget' Hread');
          reflexivity|].
  split; [intros status; unfold Main.verify_payment;
          destruct (status =? 200); [reflexivity|];
          destruct (status =? 402); reflexivity|].
  split; [intros status; unfold TestFunction.verify_payment;
          destruct (status =? 200); [reflexivity|];
          destruct (status =? 402); reflexivity|].
  split; intros e Hread.
  - apply (main_request_unreadable L cfg path resp e Hget Hread).
  - apply (tf_request_unreadable L cfg' path resp' e Hget' Hread).
Qed.

Lemma classification_by_status_witness :
  stdout (Eff.trace (TestFunction.request Demo.busy
                       (Demo.client Demo.busy "0xA11CE") "/f"))
  = ["2. Response Status: 503";
     Py.nl +:+ "📋 Response Headers:";
     Py.nl +:+ "📦 Response Body:"; "busy";
     Py.nl +:+ rule; "X-PAYMENT Header Verification:"; rule;
     "⚠️  Unexpected status code: 503";
     Py.nl +:+ "⚠️  No X-Payment-Response header";
     "   (Payment verified but settlement header not present)"].
Proof.
  rewrite (proj1 (proj2 (classification_by_status Demo.busy
                           (Demo.client Demo.busy "0xA11CE")
                           (Demo.client Demo.busy "0xA11CE") "/f"
                           Demo.busy_response Demo.busy_response
                           eq_refl eq_refl)) "busy" eq_refl).
  reflexivity.
Defined.

(** C7 as stated fails: a response with status 200 whose body cannot be
    decoded gets no classification at all.  The run shows the status
    line and then the error. *)
Lemma unreadable_body_gets_no_classification :
  status_code Cases.broken_response = 200
  /\ TestFunction.request Cases.broken (Demo.client Cases.broken "0xA11CE") "/f"
     = ([Get "/f"; Stdout "2. Response Status: 200"], Raise Cases.undecodable)
  /\ stdout (Eff.trace (TestFunction.send Cases.broken
                          (Demo.client Cases.broken "0xA11CE") "/f"))
     = ["2. Response Status: 200";
        Py.nl +:+ "❌ Error occurred: 'utf-8' codec can't decode byte 0xff"]
  /\ ~ In (Stdout "✅ Payment verified successfully!")
          (Eff.trace (Main.main Cases.broken
                        (Demo.client Cases.broken "0xA11CE") "/f")).
Proof.
  split; [reflexivity|]. split; [reflexivity|]. split; [reflexivity|].
  vm_compute. intros H.
  repeat (destruct H as [H|H]; [discriminate H|]). exact H.
Qed.




(** ** Argument parsing and the early returns of [test_function] *)

Lemma dict_mem_get {A} (k : string) (d : list (string * A)) :
  Py.dict_mem k d = false <-> Py.dict_get k d = None.
Proof.
  induction d as [|[k' v] d IH]; cbn; [tauto|].
  destruct (String.eqb k' k); cbn; [split; discriminate | exact IH].
Qed.

Lemma dict_mem_get_some {A} (k : string) (d : list (string * A)) :
  Py.dict_mem k d = true <-> exists v, Py.dict_get k d = Some v.
Proof.
  induction d as [|[k' v] d IH]; cbn.
  - split; [discriminate | intros [v H]; discriminate].
  - destruct (String.eqb k' k); cbn; [split; eauto | exact IH].
Qed.

Lemma print_usage_prints :
  exists lines, lines <> [] /\ prints TestFunction.print_usage lines.
Proof.
  exists (stdout (Eff.trace TestFunction.print_usage)).
  split; [vm_compute; discriminate | vm_compute; reflexivity].
Qed.

(** [parse_args] either returns a function name and parameters having
    printed nothing, or prints a usage error and exits with status 1. *)
Lemma parse_args_cases env args :
  (exists name params, TestFunction.parse_args env args = ([], Ret (name, params)))
  \/ (exists lines, lines <> []
        /\ TestFunction.parse_args env args = (map Stdout lines, Exit 1)).
Proof.
  unfold TestFunction.parse_args. destruct args as [|arg0 rest].
  - right. destruct print_usage_prints as (lines & Hne & Hp).
    exists lines. split; [exact Hne|]. rewrite (bind_prints _ _ _ Hp).
    cbn. rewrite app_nil_r. reflexivity.
  - destruct (Py.dict_mem _ _); [left; eauto|].
    destruct (Py.truthy (env !! "FUNCTION_NAME")); cbn [negb]; [left; eauto|].
    right. eexists [_; _]. split; [discriminate | reflexivity].
Qed.

Lemma tf_test_function_unknown L env name params :
  Py.dict_get name TestFunction.FUNCTION_CONFIGS = None ->
  TestFunction.test_function L env name params
  = ([Stdout ("❌ Unknown function: " +:+ name);
      Stdout "Available functions: ['toolzv4', 'url-qr-code-generator', 'email-validator']"],
     Ret tt).
Proof. unfold TestFunction.test_function. intros ->. reflexivity. Qed.

Lemma tf_test_function_no_key L env name cfg params q :
  Py.dict_get name TestFunction.FUNCTION_CONFIGS = Some cfg ->
  Py.urlencode (TestFunction.final_params cfg params) = inr q ->
  Py.truthy (env !! "PRIVATE_KEY") = false ->
  TestFunction.test_function L env name params
  = ([Stdout "❌ Error: PRIVATE_KEY environment variable is required";
      Stdout "Set it in .env file or environment"],
     Ret tt).
Proof.
  intros Hcfg Hq Hkey.
  rewrite (tf_test_function_encoded L env name cfg params q Hcfg Hq), Hkey.
  reflexivity.
Qed.

(** Without a signing key [test_function] prints at most two lines and
    opens nothing: it returns, or the query string cannot be built. *)
Lemma tf_test_function_keyless L env name params :
  Py.truthy (env !! "PRIVATE_KEY") = false ->
  exists lines o, TestFunction.test_function L env name params
                  = (map Stdout lines, o).
Proof.
  intros Hkey.
  destruct (Py.dict_get name TestFunction.FUNCTION_CONFIGS) as [cfg|] eqn:Hc.
  - destruct (Py.urlencode (TestFunction.final_params cfg params)) as [bad|q] eqn:Hq.
    + exists [], (Raise (UnicodeEncodeError L bad)).
      apply (tf_test_function_unencodable L env name cfg params bad Hc Hq).
    + eexists [_; _], _.
      apply (tf_test_function_no_key L env name cfg params q Hc Hq Hkey).
  - eexists [_; _], _. apply (tf_test_function_unknown L env name params Hc).
Qed.

(** C2 (amended). When any of the signing key, the base URL or the
    endpoint path is absent (or empty), the first script prints its error
    and exits with status 1, with no other event.  When the signing key is
    absent (or empty), the second script makes no network call and opens
    no client, but it does not exit with status 1 for that: for a
    registered function whose parameters can be encoded, its request
    routine prints the key error and returns, so the process exits with
    status 0.  It exits with status 1 only when argument parsing has
    already failed, or when a parameter cannot be encoded into the query
    string, which is built before the key is looked at. *)
Theorem missing_configuration_stops_before_network (L : Lib)
    (env : gmap string string) (args : list string) :
  (Py.truthy (env !! "PRIVATE_KEY") = false
   \/ Py.truthy (env !! "RESOURCE_SERVER_URL") = false
   \/ Py.truthy (env !! "ENDPOINT_PATH") = false ->
   Main.script L env
   = ([Stdout "Error: Missing required environment variables"], Exit 1))
  /\ (Py.truthy (env !! "PRIVATE_KEY") = false ->
      requests (Eff.trace (TestFunction.script L env args)) = []
      /\ opened (Eff.trace (TestFunction.script L env args)) = []
      /\ (forall name cfg params q,
            TestFunction.parse_args env args = ([], Ret (name, params)) ->
            Py.dict_get name TestFunction.FUNCTION_CONFIGS = Some cfg ->
            Py.urlencode (TestFunction.final_params cfg params) = inr q ->
            TestFunction.script L env args
            = ([Stdout "❌ Error: PRIVATE_KEY environment variable is required";
                Stdout "Set it in .env file or environment"],
               Ret tt)
            /\ exit_status (TestFunction.script L env args) = 0)
      /\ (forall name cfg params bad,
            TestFunction.parse_args env args = ([], Ret (name, params)) ->
            Py.dict_get name TestFunction.FUNCTION_CONFIGS = Some cfg ->
            Py.urlencode (TestFunction.final_params cfg params) = inl bad ->
            TestFunction.script L env args
            = ([], Raise (UnicodeEncodeError L bad))
            /\ exit_status (TestFunction.script L env args) = 1)
      /\ (forall t code,
            TestFunction.parse_args env args = (t, Exit code) ->
            exit_status (TestFunction.script L env args) = 1)).
Proof.
  split.
  - intros Hmissing. unfold Main.script.
    assert (Hall : Py.all [env !! "PRIVATE_KEY"; env !! "RESOURCE_SERVER_URL";
                           env !! "ENDPOINT_PATH"] = false).
    { cbn. destruct Hmissing as [-> | [-> | ->]];
        rewrite ?andb_false_r; reflexivity. }
    rewrite Hall. reflexivity.
  - intros Hkey. unfold TestFunction.script.
    destruct (parse_args_cases env args)
      as [(name & params & Hp) | (lines & Hne & Hp)].
    + rewrite (bind_returns _ _ _ _ Hp), Hp. cbn [fst snd app].
      destruct (tf_test_function_keyless L env name params Hkey)
        as (lines & o & Ht).
      split; [rewrite Ht; apply requests_Stdout|].
      split; [rewrite Ht; apply opened_Stdout|].
      split; [|split].
      * intros name' cfg params' q Heq Hcfg Hq. injection Heq as <- <-.
        rewrite (tf_test_function_no_key L env name cfg params q Hcfg Hq Hkey).
        split; reflexivity.
      * intros name' cfg params' bad Heq Hcfg Hq. injection Heq as <- <-.
        rewrite (tf_test_function_unencodable L env name cfg params bad Hcfg Hq).
        split; reflexivity.
      * intros t code Heq. discriminate.
    + rewrite (bind_exits _ _ _ _ Hp), Hp.
      split; [apply requests_Stdout|].
      split; [apply opened_Stdout|].
      split; [intros; discriminate|].
      split; [intros; discriminate|].
      intros t code Heq. reflexivity.
Qed.

Lemma missing_configuration_stops_before_network_witness :
  Py.truthy ((∅ : gmap string string) !! "PRIVATE_KEY") = false
  /\ Main.script Demo.offline ∅
     = ([Stdout "Error: Missing required environment variables"], Exit 1)
  /\ requests (Eff.trace (TestFunction.script Demo.offline ∅ ["toolzv4"])) = [].
Proof.
  split; [reflexivity|]. split.
  - apply (proj1 (missing_configuration_stops_before_network Demo.offline ∅ [])).
    left. reflexivity.
  - apply (proj2 (missing_configuration_stops_before_network Demo.offline ∅
                    ["toolzv4"])).
    reflexivity.
Defined.

(** C2 as stated fails for the second script: with no signing key and the
    arguments [toolzv4], it prints the key error and ends with exit status
    0, not 1. *)
Lemma missing_key_second_script_exits_zero :
  (∅ : gmap string string) !! "PRIVATE_KEY" = None
  /\ TestFunction.script Demo.offline ∅ ["toolzv4"]
     = ([Stdout "❌ Error: PRIVATE_KEY environment variable is required";
         Stdout "Set it in .env file or environment"],
        Ret tt)
  /\ exit_status (TestFunction.script Demo.offline ∅ ["toolzv4"]) = 0
  /\ exit_status (TestFunction.script Demo.offline ∅ ["toolzv4"]) <> 1.
Proof. repeat split. discriminate. Qed.

(** With no signing key and a parameter that holds a lone surrogate, the
    second script prints nothing: building the query string raises. *)
Example missing_key_unencodable_parameter :
  Py.encodable "target=" = true
  /\ Py.encodable Cases.stray = false
  /\ process (TestFunction.script Demo.offline ∅ ["toolzv4"; Cases.stray])
     = ([Stderr "Traceback: UnicodeEncodeError"], 1).
Proof. repeat split. Qed.







(** C4 (amended). For a response whose body was read and decoded, the
    report of either script echoes exactly the headers whose lower-cased
    name contains ["payment"] or contains ["x-"] (anywhere in the name,
    not only at its start), in the order the response yields them, and
    omits all others.  A value longer than 100 characters is shown as its
    first 100 characters followed by ["..."]; a shorter value is shown
    whole.  When the body cannot be read or decoded, no header is echoed:
    the status line is the last thing printed about the response. *)
Theorem echoed_headers (L : Lib)
    (cfg : ClientConfig (account L) (Main.selector L))
    (cfg' : ClientConfig (account L) (TestFunction.selector L))
    (path : string) (resp resp' : Response) :
  client_get L cfg path = inr resp ->
  client_get L cfg' path = inr resp' ->
  let echoed (r : Response) : list string :=
    map (fun kv => header_line (fst kv) (snd kv))
        (List.filter (fun kv => header_shown (fst kv)) (items (headers r))) in
  (forall text,
      read_text resp = inr text ->
      Eff.trace (Main.request L cfg path)
      = Eff.trace (Main.announce L cfg path)
          ++ [Get path; Stdout (status_line resp)]
          ++ map Stdout
               ([Py.nl +:+ "📋 Response Headers:"] ++ echoed resp
                  ++ [Py.nl +:+ "📦 Response Body:"; body_line L text;
                      Py.nl +:+ rule; "X-PAYMENT Header Verification:"; rule])
          ++ Eff.trace (Main.verify_payment (status_code resp))
          ++ Eff.trace (Main.check_settlement L (headers resp)))
  /\ (forall text',
        read_text resp' = inr text' ->
        Eff.trace (TestFunction.request L cfg' path)
        = [Get path; Stdout (status_line resp')]
            ++ map Stdout
                 ([Py.nl +:+ "📋 Response Headers:"] ++ echoed resp'
                    ++ [Py.nl +:+ "📦 Response Body:"; body_line L text';
                        Py.nl +:+ rule; "X-PAYMENT Header Verification:"; rule])
            ++ Eff.trace (TestFunction.verify_payment (status_code resp'))
            ++ Eff.trace (TestFunction.check_settlement L (headers resp')))
  /\ (forall e,
        read_text resp = inl e ->
        Main.request L cfg path
        = (Eff.trace (Main.announce L cfg path)
             ++ [Get path; Stdout (status_line resp)],
           Raise e))
  /\ (forall e,
        read_text resp' = inl e ->
        TestFunction.request L cfg' path
        = ([Get path; Stdout (status_line resp')], Raise e))
  /\ (forall key,
        header_shown key = true
        <-> (exists a b, Py.lower key = a +:+ "payment" +:+ b)
            \/ (exists a b, Py.lower key = a +:+ "x-" +:+ b))
  /\ (forall key value,
        100 < Py.len value ->
        header_line key value
        = "   " +:+ key +:+ ": " +:+ Py.take 100 value +:+ "..."
        /\ Py.len (Py.take 100 value) = 100
        /\ exists rest, value = Py.take 100 value +:+ rest)
  /\ (forall key value,
        Py.len value <= 100 ->
        header_line key value = "   " +:+ key +:+ ": " +:+ value).
Proof.
  intros Hget Hget' echoed.
  split; [intros text Hread;
          rewrite (main_request_read L cfg path resp text Hget Hread);
          reflexivity|].
  split; [intros text' Hread';
          rewrite (tf_request_read L cfg' path resp' text' Hget' Hread');
          reflexivity|].
  split; [intros e Hread;
          apply (main_request_unreadable L cfg path resp e Hget Hread)|].
  split; [intros e Hread;
          apply (tf_request_unreadable L cfg' path resp' e Hget' Hread)|].
  split.
  - intros key. unfold header_shown.
    rewrite orb_true_iff, !contains_spec. reflexivity.
  - split; intros key value Hlen; unfold header_line.
    + destruct (Z.gtb_spec (Py.len value) 100) as [_|Hle]; [|lia].
      split; [reflexivity|]. split; [rewrite len_take; lia | apply take_prefix].
    + destruct (Z.gtb_spec (Py.len value) 100) as [Hgt|_];
        [lia | reflexivity].
Qed.

Lemma echoed_headers_witness :
  100 < Py.len Demo.long_value
  /\ header_line "x-trace" Demo.long_value
     = "   x-trace: " +:+ Py.repeat_str 100 "a" +:+ "...".
Proof.
  split; [reflexivity|].
  rewrite (proj1 (proj1 (proj2 (proj2 (proj2 (proj2 (proj2
             (echoed_headers Demo.plain
                (Demo.client Demo.plain "0xA11CE")
                (Demo.client Demo.plain "0xA11CE") "/f"
                Demo.unpaid_plain Demo.unpaid_plain eq_refl eq_refl))))))
             "x-trace" Demo.long_value eq_refl)).
  reflexivity.
Defined.

(** C4 as stated fails: [Max-Forwards] neither contains ["payment"] nor
    starts with ["x-"], yet it is echoed, because ["x-"] occurs inside the
    name; a truncated value is followed by three dots; and the [X-Trace]
    header of a response whose body cannot be decoded is not echoed. *)
Lemma header_with_inner_x_dash_is_echoed :
  Py.contains "payment" (Py.lower "Max-Forwards") = false
  /\ Py.startswith "x-" (Py.lower "Max-Forwards") = false
  /\ items Demo.forwarded = [("max-forwards", "10")]
  /\ echo_headers Demo.forwarded = ([Stdout "   max-forwards: 10"], Ret tt)
  /\ header_line "x-trace" Demo.long_value
     <> "   x-trace: " +:+ Py.take 100 Demo.long_value
  /\ items (headers Cases.broken_response) = [("x-trace", "1")]
  /\ stdout (Eff.trace (TestFunction.send Cases.broken
                          (Demo.client Cases.broken "0xA11CE") "/f"))
     = ["2. Response Status: 200";
        Py.nl +:+ "❌ Error occurred: 'utf-8' codec can't decode byte 0xff"].
Proof.
  split; [reflexivity|]. split; [reflexivity|]. split; [reflexivity|].
  split; [reflexivity|]. split; [vm_compute; discriminate|].
  split; reflexivity.
Qed.

(** Characters are counted, not bytes: a value of sixty accented letters
    takes 120 bytes and is shown whole. *)
Example accented_value_is_shown_whole :
  String.length (Cases.accents 60) = 120%nat
  /\ Py.len (Cases.accents 60) = 60
  /\ header_line "x-name" (Cases.accents 60) = "   x-name: " +:+ Cases.accents 60
  /\ Py.len (Py.take 100 (Cases.accents 101)) = 100
  /\ Py.take 100 (Cases.accents 101) = Cases.accents 100.
Proof. repeat split. Qed.

(** ** Merging parameters over defaults *)

(** Setting a key that the dict already holds keeps the order of keys. *)
Lemma dict_set_keeps_order k v (d : Py.dict) :
  Py.dict_mem k d = true -> map fst (Py.dict_set k v d) = map fst d.
Proof.
  induction d as [|[k' v'] d IH]; cbn; [discriminate|].
  destruct (String.eqb_spec k' k) as [->|Hne]; cbn; [reflexivity|].
  intros H. rewrite IH; [reflexivity | exact H].
Qed.

Lemma dict_get_set_same k v (d : Py.dict) :
  Py.dict_get k (Py.dict_set k v d) = Some v.
Proof.
  induction d as [|[k' v'] d IH]; cbn; [rewrite String.eqb_refl; reflexivity|].
  destruct (String.eqb_spec k' k) as [->|Hne]; cbn.
  - rewrite String.eqb_refl. reflexivity.
  - destruct (String.eqb_spec k' k); [contradiction | exact IH].
Qed.

Lemma dict_get_set_other k k' v (d : Py.dict) :
  k' <> k -> Py.dict_get k' (Py.dict_set k v d) = Py.dict_get k' d.
Proof.
  intros Hne. induction d as [|[k0 v0] d IH]; cbn.
  - destruct (String.eqb_spec k k'); [congruence | reflexivity].
  - destruct (String.eqb_spec k0 k) as [->|H0]; cbn.
    + destruct (String.eqb_spec k k'); [congruence | reflexivity].
    + destruct (String.eqb_spec k0 k'); [reflexivity | exact IH].
Qed.

(** * Further properties of the scripts *)

(** ** Reading [key=value] arguments *)

Lemma contains_eq_cons c s :
  Py.contains "=" (String c s) = (Ascii.eqb c "="%char || Py.contains "=" s)%bool.
Proof.
  change (Py.contains "=" (String c s))
    with ((Ascii.eqb "="%char c && Py.startswith EmptyString s)
          || Py.contains "=" s)%bool.
  change (Py.startswith EmptyString s) with true.
  rewrite andb_true_r, (Ascii.eqb_sym "="%char c). reflexivity.
Qed.

(** X1. [split_eq] is the test ['=' in arg] followed by
    [arg.split('=', 1)]: it gives nothing exactly when the argument holds
    no ['='], and otherwise the text before the first ['='] (which holds
    none) and all the text after it, further ['='] included. *)
Theorem split_eq_first_equals :
  (forall arg, Py.split_eq arg = None <-> Py.contains "=" arg = false)
  /\ (forall arg k v,
        Py.split_eq arg = Some (k, v)
        <-> arg = k +:+ "=" +:+ v /\ Py.contains "=" k = false).
Proof.
  split.
  - induction arg as [|c s IH]; [cbn; tauto|].
    rewrite contains_eq_cons. cbn [Py.split_eq].
    destruct (Ascii.eqb c "="%char); cbn [orb]; [split; discriminate|].
    rewrite <- IH. destruct (Py.split_eq s) as [[k v]|]; split;
      (discriminate || reflexivity).
  - induction arg as [|c s IH]; intros k v.
    + cbn [Py.split_eq]. split; [discriminate|].
      intros [H _]. destruct k; discriminate.
    + cbn [Py.split_eq]. destruct (Ascii.eqb_spec c "="%char) as [Hc|Hc].
      * subst c. split.
        -- intros H. injection H as Hk Hv. subst k v. split; reflexivity.
        -- intros [H Hk]. destruct k as [|c' k].
           ++ change (String "="%char s = String "="%char v) in H.
              injection H as Hv. subst v. reflexivity.
           ++ change (String "="%char s = String c' (k +:+ "=" +:+ v)) in H.
              injection H as Hc' _. subst c'.
              rewrite contains_eq_cons in Hk. discriminate.
      * destruct (Py.split_eq s) as [[k' v']|] eqn:Hs.
        -- split.
           ++ intros H. injection H as Hk Hv. subst k v.
              destruct (proj1 (IH k' v') eq_refl) as [Heq Hk'].
              split; [rewrite Heq; reflexivity|].
              rewrite contains_eq_cons, Hk'.
              destruct (Ascii.eqb_spec c "="%char); [contradiction | reflexivity].
           ++ intros [H Hk]. destruct k as [|c' k].
              ** change (String c s = String "="%char v) in H.
                 injection H as Hc' _. contradiction.
              ** change (String c s = String c' (k +:+ "=" +:+ v)) in H.
                 injection H as Hc' H. subst c'.
                 rewrite contains_eq_cons in Hk.
                 apply orb_false_elim in Hk as [_ Hk].
                 pose proof (proj2 (IH k v) (conj H Hk)) as Hkv.
                 injection Hkv as Hk'' Hv''. subst k' v'. reflexivity.
        -- split; [discriminate|]. intros [H Hk]. destruct k as [|c' k].
           ++ change (String c s = String "="%char v) in H.
              injection H as Hc' _. contradiction.
           ++ change (String c s = String c' (k +:+ "=" +:+ v)) in H.
              injection H as Hc' H. subst c'.
              rewrite contains_eq_cons in Hk.
              apply orb_false_elim in Hk as [_ Hk].
              pose proof (proj2 (IH k v) (conj H Hk)). discriminate.
Qed.

Lemma parse_params_snoc args arg :
  TestFunction.parse_params (args ++ [arg])
  = match Py.split_eq arg with
    | Some (key, value) => Py.dict_set key value (TestFunction.parse_params args)
    | None => TestFunction.parse_params args
    end.
Proof.
  unfold TestFunction.parse_params. rewrite fold_left_app. cbn.
  destruct (Py.split_eq arg) as [[k v]|]; reflexivity.
Qed.

Lemma split_eq_none s : Py.contains "=" s = false -> Py.split_eq s = None.
Proof.
  induction s as [|c s IH]; [reflexivity|].
  rewrite contains_eq_cons. intros H. apply orb_false_elim in H as [Hc Hs].
  cbn [Py.split_eq]. rewrite Hc, (IH Hs). reflexivity.
Qed.

Lemma split_eq_join k v :
  Py.contains "=" k = false -> Py.split_eq (k +:+ "=" +:+ v) = Some (k, v).
Proof.
  induction k as [|c k IH]; intros Hk.
  - change (EmptyString +:+ "=" +:+ v) with (String "="%char v).
    cbn [Py.split_eq]. rewrite Ascii.eqb_refl. reflexivity.
  - rewrite contains_eq_cons in Hk. apply orb_false_elim in Hk as [Hc Hk].
    change (String c k +:+ "=" +:+ v) with (String c (k +:+ "=" +:+ v)).
    cbn [Py.split_eq]. rewrite Hc, (IH Hk). reflexivity.
Qed.

(** X2. A [key=value] token given last decides what is stored under
    [key], whatever came before it, and leaves every other key as the
    earlier tokens set it; a token without ['='] changes nothing. *)
Theorem last_token_wins (args : list string) (k v : string) :
  Py.contains "=" k = false ->
  Py.dict_get k (TestFunction.parse_params (args ++ [k +:+ "=" +:+ v])) = Some v
  /\ (forall k', k' <> k ->
        Py.dict_get k' (TestFunction.parse_params (args ++ [k +:+ "=" +:+ v]))
        = Py.dict_get k' (TestFunction.parse_params args))
  /\ (forall token, Py.contains "=" token = false ->
        TestFunction.parse_params (args ++ [token])
        = TestFunction.parse_params args).
Proof.
  intros Hk.
  pose proof (split_eq_join k v Hk) as Hs.
  split; [rewrite parse_params_snoc, Hs; apply dict_get_set_same|].
  split.
  - intros k' Hne. rewrite parse_params_snoc, Hs.
    apply dict_get_set_other, Hne.
  - intros token Ht. rewrite parse_params_snoc.
    rewrite (split_eq_none token Ht). reflexivity.
Qed.

Lemma last_token_wins_witness :
  Py.contains "=" "target" = false
  /\ Py.dict_get "target"
       (TestFunction.parse_params (["target=8.8.8.8"; "count=2"]
                                     ++ ["target" +:+ "=" +:+ "1.1.1.1"]))
     = Some "1.1.1.1".
Proof.
  split; [reflexivity|].
  apply (proj1 (last_token_wins ["target=8.8.8.8"; "count=2"] "target" "1.1.1.1"
                  eq_refl)).
Defined.

(** ** Keys of parsed and merged parameters *)

Lemma dict_mem_set k k' v (d : Py.dict) :
  Py.dict_mem k' (Py.dict_set k v d)
  = (String.eqb k k' || Py.dict_mem k' d)%bool.
Proof.
  unfold Py.dict_mem.
  induction d as [|[k0 v0] d IH]; cbn [Py.dict_set existsb fst].
  - rewrite orb_false_r. reflexivity.
  - destruct (String.eqb_spec k0 k) as [->|Hne]; cbn [existsb fst].
    + destruct (String.eqb k k'); reflexivity.
    + rewrite IH. destruct (String.eqb k0 k'), (String.eqb k k'); reflexivity.
Qed.

Lemma dict_mem_keys {A} k (d : list (string * A)) :
  Py.dict_mem k d = true <-> k ∈ map fst d.
Proof.
  induction d as [|[k0 v0] d IH]; cbn.
  - split; [discriminate | intros H; inversion H].
  - rewrite orb_true_iff, IH, String.eqb_eq, elem_of_cons. split.
    + intros [->|H]; [left; reflexivity | right; exact H].
    + intros [->|H]; [left; reflexivity | right; exact H].
Qed.

Lemma dict_set_keys k v (d : Py.dict) :
  map fst (Py.dict_set k v d)
  = if Py.dict_mem k d then map fst d else map fst d ++ [k].
Proof.
  unfold Py.dict_mem.
  induction d as [|[k0 v0] d IH]; [reflexivity|].
  cbn [Py.dict_set existsb fst map].
  destruct (String.eqb_spec k0 k) as [Heq|Hne]; cbn [orb map fst].
  - subst k0. reflexivity.
  - rewrite IH. destruct (existsb _ d); reflexivity.
Qed.

Lemma dict_set_NoDup k v (d : Py.dict) :
  NoDup (map fst d) -> NoDup (map fst (Py.dict_set k v d)).
Proof.
  intros Hd. rewrite dict_set_keys.
  destruct (Py.dict_mem k d) eqn:Hm; [exact Hd|].
  apply NoDup_app. split; [exact Hd|]. split; [|apply NoDup_singleton].
  intros x Hx Hin. apply list_elem_of_singleton in Hin. subst x.
  apply dict_mem_keys in Hx. congruence.
Qed.

Lemma parse_params_NoDup args : NoDup (map fst (TestFunction.parse_params args)).
Proof.
  induction args as [|arg args IH] using rev_ind; [constructor|].
  rewrite parse_params_snoc. destruct (Py.split_eq arg) as [[k v]|]; [|exact IH].
  apply dict_set_NoDup, IH.
Qed.

Lemma dict_merge_NoDup (d1 d2 : Py.dict) :
  NoDup (map fst d1) -> NoDup (map fst (Py.dict_merge d1 d2)).
Proof.
  revert d1. induction d2 as [|[k v] d2 IH]; intros d1 Hd; [exact Hd|].
  apply IH, dict_set_NoDup, Hd.
Qed.

(** X3. The parameters read from the command line never hold a key
    twice, and neither do the parameters merged over the defaults of a
    registered function: every key occurs once in the query string. *)
Theorem parameters_have_unique_keys (args : list string) :
  NoDup (map fst (TestFunction.parse_params args))
  /\ (forall name cfg params,
        Py.dict_get name TestFunction.FUNCTION_CONFIGS = Some cfg ->
        NoDup (map fst (TestFunction.final_params cfg params))).
Proof.
  split; [apply parse_params_NoDup|].
  intros name cfg params Hcfg. apply dict_merge_NoDup.
  unfold TestFunction.FUNCTION_CONFIGS in Hcfg. cbn [Py.dict_get] in Hcfg.
  repeat match type of Hcfg with
         | (if ?b then _ else _) = _ => destruct b
         end; try discriminate; injection Hcfg as <-; cbn;
    repeat (apply NoDup_cons; split;
            [rewrite ?elem_of_cons, elem_of_nil; intros H;
             repeat destruct H as [H|H]; discriminate || exact H|]);
    apply NoDup_nil; exact I.
Qed.

Lemma dict_get_absent {A} k (d : list (string * A)) :
  k ∉ map fst d -> Py.dict_get k d = None.
Proof.
  intros H. apply dict_mem_get. destruct (Py.dict_mem k d) eqn:Hm; [|reflexivity].
  apply dict_mem_keys in Hm. contradiction.
Qed.

Lemma dict_merge_get (d1 d2 : Py.dict) k :
  NoDup (map fst d2) ->
  Py.dict_get k (Py.dict_merge d1 d2)
  = match Py.dict_get k d2 with
    | Some v => Some v
    | None => Py.dict_get k d1
    end.
Proof.
  revert d1. induction d2 as [|[k0 v0] d2 IH]; intros d1 Hd; [reflexivity|].
  cbn [map fst] in Hd. apply NoDup_cons in Hd as [Hnotin Hd].
  change (Py.dict_merge d1 ((k0, v0) :: d2))
    with (Py.dict_merge (Py.dict_set k0 v0 d1) d2).
  rewrite (IH _ Hd). cbn [Py.dict_get].
  destruct (String.eqb_spec k0 k) as [Heq|Hne].
  - subst k0. rewrite (dict_get_absent _ _ Hnotin). apply dict_get_set_same.
  - destruct (Py.dict_get k d2); [reflexivity|].
    apply dict_get_set_other. congruence.
Qed.

(** X4. In the parameters sent for a function, a key given on the
    command line has the value given there, and every other key has the
    function's default value (and is absent when there is no default). *)
Theorem command_line_overrides_defaults (cfg : TestFunction.config)
    (args : list string) (k : string) :
  Py.dict_get k (TestFunction.final_params cfg (TestFunction.parse_params args))
  = match Py.dict_get k (TestFunction.parse_params args) with
    | Some v => Some v
    | None => Py.dict_get k (TestFunction.default_params cfg)
    end.
Proof. apply dict_merge_get, parse_params_NoDup. Qed.

Lemma dict_merge_keys (d1 d2 : Py.dict) :
  NoDup (map fst d2) ->
  map fst (Py.dict_merge d1 d2)
  = map fst d1
      ++ List.filter (fun k => negb (Py.dict_mem k d1)) (map fst d2).
Proof.
  revert d1. induction d2 as [|[k0 v0] d2 IH]; intros d1 Hd.
  - cbn. rewrite app_nil_r. reflexivity.
  - cbn [map fst] in Hd. apply NoDup_cons in Hd as [Hnotin Hd].
    change (Py.dict_merge d1 ((k0, v0) :: d2))
      with (Py.dict_merge (Py.dict_set k0 v0 d1) d2).
    rewrite (IH _ Hd), dict_set_keys. cbn [map fst List.filter].
    assert (Hfilter :
      List.filter (fun k => negb (Py.dict_mem k (Py.dict_set k0 v0 d1))) (map fst d2)
      = List.filter (fun k => negb (Py.dict_mem k d1)) (map fst d2)).
    { apply List.filter_ext_in. intros k Hin. rewrite dict_mem_set.
      destruct (String.eqb_spec k0 k) as [Heq|Hne]; [|reflexivity].
      subst k0. exfalso. apply Hnotin. apply list_elem_of_In. exact Hin. }
    rewrite Hfilter.
    destruct (Py.dict_mem k0 d1); cbn [negb]; [reflexivity|].
    rewrite <- app_assoc. reflexivity.
Qed.

(** X5. The merged parameters list the function's default keys first,
    in the order of the registry, whether overridden or not, and after
    them the keys that only the command line gave, in the order of their
    first appearance. *)
Theorem merged_parameters_order (cfg : TestFunction.config) (args : list string) :
  map fst (TestFunction.final_params cfg (TestFunction.parse_params args))
  = map fst (TestFunction.default_params cfg)
      ++ List.filter
           (fun k => negb (Py.dict_mem k (TestFunction.default_params cfg)))
           (map fst (TestFunction.parse_params args)).
Proof. apply dict_merge_keys, parse_params_NoDup. Qed.

(** On an example: an extra key goes last, an overridden default stays in
    place, and a repeated key keeps its first position with its last
    value. *)
Example merged_parameters_demo :
  TestFunction.final_params
    {| TestFunction.description := "demo";
       TestFunction.default_params := [("target", "8.8.8.8"); ("count", "4")] |}
    (TestFunction.parse_params ["ttl=9"; "count=1"; "verbose"; "ttl=64"; "a=b=c"])
  = [("target", "8.8.8.8"); ("count", "1"); ("ttl", "64"); ("a", "b=c")].
Proof. reflexivity. Qed.

(** ** The query string *)

Lemma count_char_app c (a b : string) :
  count_char c (a +:+ b) = (count_char c a + count_char c b)%nat.
Proof.
  induction a as [|x a IH]; [reflexivity|].
  rewrite append_cons. cbn [count_char]. rewrite IH. lia.
Qed.

Lemma hex2_unreserved (a c : ascii) :
  Py.unreserved c = false -> count_char c (Py.hex2 true a) = 0%nat.
Proof.
  intros Hc. unfold Py.hex2. cbn [count_char].
  assert (Hd : forall n, (n < 16)%nat -> Py.unreserved (Py.hex_digit true n) = true).
  { intros n Hn. do 16 (destruct n as [|n]; [reflexivity|]). lia. }
  pose proof (nat_ascii_bounded a) as Hb.
  assert (H1 : Py.unreserved (Py.hex_digit true (nat_of_ascii a / 16)) = true).
  { apply Hd. apply Nat.Div0.div_lt_upper_bound. lia. }
  assert (H2 : Py.unreserved (Py.hex_digit true (nat_of_ascii a mod 16)) = true).
  { apply Hd. apply Nat.mod_upper_bound. lia. }
  destruct (Ascii.eqb_spec (Py.hex_digit true (nat_of_ascii a / 16)) c) as [E|_];
    [rewrite E in H1; congruence|].
  destruct (Ascii.eqb_spec (Py.hex_digit true (nat_of_ascii a mod 16)) c) as [E|_];
    [rewrite E in H2; congruence|].
  reflexivity.
Qed.

Lemma quote_plus_avoids (s : string) (c : ascii) :
  Py.unreserved c = false -> c <> "+"%char -> c <> "%"%char ->
  count_char c (Py.quote_plus_bytes s) = 0%nat.
Proof.
  intros Hc Hplus Hpct. induction s as [|a s IH]; [reflexivity|].
  cbn [Py.quote_plus_bytes]. rewrite count_char_app, IH, Nat.add_0_r.
  destruct (Py.unreserved a) eqn:Ha.
  - cbn [count_char]. destruct (Ascii.eqb_spec a c) as [E|_]; [|reflexivity].
    subst a. congruence.
  - destruct (Ascii.eqb a " "%char).
    + cbn [count_char]. destruct (Ascii.eqb_spec "+"%char c) as [E|_];
        [congruence | reflexivity].
    + rewrite count_char_app, (hex2_unreserved a c Hc). cbn [count_char].
      destruct (Ascii.eqb_spec "%"%char c) as [E|_]; [congruence | reflexivity].
Qed.

Lemma unreserved_ascii c : Py.unreserved c = true -> Nat.ltb (Py.byte c) 128 = true.
Proof.
  destruct c as [[] [] [] [] [] [] [] []]; vm_compute;
    intros H; (reflexivity || discriminate H).
Qed.

(** Text made of unreserved characters only is ASCII text, and quoting
    leaves it as it is. *)
Lemma unreserved_only_ascii s :
  (forall c, Py.unreserved c = false -> count_char c s = 0%nat) ->
  Py.ascii_only s = true.
Proof.
  induction s as [|a s IH]; intros Hs; [reflexivity|].
  cbn [Py.ascii_only]. destruct (Py.unreserved a) eqn:Ha.
  - rewrite (unreserved_ascii a Ha), IH; [reflexivity|].
    intros c Hc. specialize (Hs c Hc). cbn [count_char] in Hs. lia.
  - specialize (Hs a Ha). cbn [count_char] in Hs.
    rewrite Ascii.eqb_refl in Hs. discriminate.
Qed.

Lemma unreserved_only_kept s :
  (forall c, Py.unreserved c = false -> count_char c s = 0%nat) ->
  Py.quote_plus_bytes s = s.
Proof.
  induction s as [|a s IH]; intros Hs; [reflexivity|].
  cbn [Py.quote_plus_bytes]. destruct (Py.unreserved a) eqn:Ha.
  - rewrite IH; [reflexivity|]. intros c Hc. specialize (Hs c Hc).
    cbn [count_char] in Hs. lia.
  - specialize (Hs a Ha). cbn [count_char] in Hs.
    rewrite Ascii.eqb_refl in Hs. discriminate.
Qed.

(** X6. [quote_plus] succeeds on a text exactly when the text can be
    encoded, and gives the percent-encoding of its bytes.  That encoding
    leaves in a key or value only letters, digits, [_ . - ~], [+] and
    [%]: no other character survives it, so an encoded key or value holds
    no [&], [=], [?], [#], [/] or space; and text made of letters, digits
    and [_ . - ~] alone is left as it is. *)
Theorem quote_plus_output_is_safe (s : string) :
  (forall c, Py.unreserved c = false -> c <> "+"%char -> c <> "%"%char ->
        count_char c (Py.quote_plus_bytes s) = 0%nat)
  /\ count_char "&" (Py.quote_plus_bytes s) = 0%nat
  /\ count_char "=" (Py.quote_plus_bytes s) = 0%nat
  /\ count_char "?" (Py.quote_plus_bytes s) = 0%nat
  /\ count_char "#" (Py.quote_plus_bytes s) = 0%nat
  /\ count_char "/" (Py.quote_plus_bytes s) = 0%nat
  /\ count_char " " (Py.quote_plus_bytes s) = 0%nat
  /\ ((forall c, Py.unreserved c = false -> count_char c s = 0%nat) ->
      Py.quote_plus_bytes s = s /\ Py.quote_plus s = Some s)
  /\ (forall q, Py.quote_plus s = Some q <->
                Py.encodable s = true /\ q = Py.quote_plus_bytes s)
  /\ (Py.quote_plus s = None <-> Py.encodable s = false).
Proof.
  split; [intros c; apply quote_plus_avoids|].
  repeat (split; [apply quote_plus_avoids; (reflexivity || discriminate)|]).
  split; [|split].
  - intros Hs. split; [apply unreserved_only_kept, Hs|].
    rewrite quote_plus_encodable
      by apply ascii_only_encodable, unreserved_only_ascii, Hs.
    f_equal. apply unreserved_only_kept, Hs.
  - intros q. unfold Py.quote_plus. destruct (Py.encodable s); split.
    + intros H. injection H as <-. split; reflexivity.
    + intros [_ ->]. reflexivity.
    + discriminate.
    + intros [H _]. discriminate.
  - unfold Py.quote_plus. destruct (Py.encodable s); split;
      (reflexivity || discriminate).
Qed.

Lemma quote_plus_output_is_safe_witness :
  (forall c, Py.unreserved c = false -> count_char c "1.2.3.4" = 0%nat)
  /\ Py.quote_plus "1.2.3.4" = Some "1.2.3.4".
Proof.
  assert (H : forall c, Py.unreserved c = false -> count_char c "1.2.3.4" = 0%nat).
  { intros c Hc. cbn [count_char].
    repeat match goal with
           | |- context [Ascii.eqb ?a c] =>
               destruct (Ascii.eqb_spec a c) as [E|_];
               [subst c; vm_compute in Hc; discriminate|]
           end.
    reflexivity. }
  split; [exact H|].
  apply (proj1 (proj2 (proj2 (proj2 (proj2 (proj2 (proj2 (proj2
           (quote_plus_output_is_safe "1.2.3.4")))))))) H).
Defined.

Lemma join_count c (parts : list string) :
  count_char c (Py.join "&" parts)
  = (list_sum (map (count_char c) parts)
     + (if Ascii.eqb "&"%char c then Nat.pred (length parts) else 0))%nat.
Proof.
  induction parts as [|p ps IH]; [destruct (Ascii.eqb "&"%char c); reflexivity|].
  destruct ps as [|q ps].
  - change (Py.join "&" [p]) with p. unfold list_sum.
    cbn [map fold_right length Nat.pred]. destruct (Ascii.eqb "&"%char c); lia.
  - change (Py.join "&" (p :: q :: ps)) with (p +:+ "&" +:+ Py.join "&" (q :: ps)).
    rewrite !count_char_app, IH. unfold list_sum.
    cbn [count_char map fold_right length Nat.pred].
    destruct (Ascii.eqb "&"%char c); lia.
Qed.

Lemma pairs_count_eq (d : Py.dict) :
  list_sum (map (count_char "=")
              (map (fun kv => Py.quote_plus_bytes (fst kv) +:+ "="
                              +:+ Py.quote_plus_bytes (snd kv)) d))
  = length d.
Proof.
  induction d as [|[k v] d IH]; [reflexivity|].
  unfold list_sum in *. cbn [map fold_right length fst snd].
  rewrite IH, !count_char_app.
  rewrite !(quote_plus_avoids _ "="%char eq_refl) by discriminate.
  reflexivity.
Qed.

Lemma pairs_count_amp (d : Py.dict) :
  list_sum (map (count_char "&")
              (map (fun kv => Py.quote_plus_bytes (fst kv) +:+ "="
                              +:+ Py.quote_plus_bytes (snd kv)) d))
  = 0%nat.
Proof.
  induction d as [|[k v] d IH]; [reflexivity|].
  unfold list_sum in *. cbn [map fold_right length fst snd].
  rewrite IH, !count_char_app.
  rewrite !(quote_plus_avoids _ "&"%char eq_refl) by discriminate.
  reflexivity.
Qed.

Lemma urlencode_bytes_separators (d : Py.dict) :
  count_char "=" (Py.urlencode_bytes d) = length d
  /\ count_char "&" (Py.urlencode_bytes d) = Nat.pred (length d).
Proof.
  unfold Py.urlencode_bytes. rewrite !join_count, length_map.
  change (Ascii.eqb "&"%char "="%char) with false.
  change (Ascii.eqb "&"%char "&"%char) with true.
  rewrite pairs_count_eq, pairs_count_amp. split; lia.
Qed.

(** X7. [urlencode] gives a query string exactly for a parameter dict
    whose keys and values can all be encoded, and the query string holds
    exactly one [=] per parameter and one [&] between two parameters,
    whatever the keys and values contain: a value cannot add or split a
    parameter. *)
Theorem urlencode_separators (d : Py.dict) :
  count_char "=" (Py.urlencode_bytes d) = length d
  /\ count_char "&" (Py.urlencode_bytes d) = Nat.pred (length d)
  /\ (forall q, Py.urlencode d = inr q ->
        q = Py.urlencode_bytes d
        /\ count_char "=" q = length d
        /\ count_char "&" q = Nat.pred (length d))
  /\ ((exists q, Py.urlencode d = inr q)
      <-> forallb (fun kv => (Py.encodable (fst kv)
                              && Py.encodable (snd kv))%bool) d = true).
Proof.
  split; [apply urlencode_bytes_separators|].
  split; [apply urlencode_bytes_separators|].
  split; [|apply urlencode_encodable].
  intros q Hq. rewrite (urlencode_bytes d q Hq).
  split; [reflexivity|]. apply urlencode_bytes_separators.
Qed.

(** On an example: separators and spaces inside a value are encoded, and
    an accented letter is encoded byte by byte. *)
Example urlencode_demo :
  Py.urlencode [("url", "https://example.com/?a=1&b=2"); ("note", "two words");
                ("name", "é")]
  = inr "url=https%3A%2F%2Fexample.com%2F%3Fa%3D1%26b%3D2&note=two+words&name=%C3%A9"
  /\ Py.urlencode [("target", "1.2.3.4"); ("bad", Cases.stray)] = inl Cases.stray.
Proof. split; reflexivity. Qed.

(** ** Choosing the function *)

(** X8. With the function-name override set (and not empty) and at
    least one argument, [parse_args] prints nothing and returns the
    override as function name, registered or not, with every argument read
    as a parameter; the first argument does not select the function, even
    when it names a registered one. *)
Theorem override_reads_every_token (env : gmap string string)
    (args : list string) :
  Py.truthy (env !! "FUNCTION_NAME") = true ->
  args <> [] ->
  TestFunction.parse_args env args
  = ([], Ret (Py.the (env !! "FUNCTION_NAME"), TestFunction.parse_params args)).
Proof.
  intros Ht Hargs. unfold TestFunction.parse_args.
  destruct args as [|arg0 rest]; [contradiction|].
  rewrite (or_else_truthy _ _ Ht), Ht. cbn [negb].
  destruct (Py.dict_mem _ _); reflexivity.
Qed.

Lemma override_reads_every_token_witness :
  Py.truthy (Cases.env_override !! "FUNCTION_NAME") = true
  /\ TestFunction.parse_args Cases.env_override ["toolzv4"; "email=a@b.c"]
     = ([], Ret ("email-validator", [("email", "a@b.c")])).
Proof.
  split; [reflexivity|].
  apply (override_reads_every_token Cases.env_override ["toolzv4"; "email=a@b.c"]
           eq_refl ltac:(discriminate)).
Defined.

(** X9. Without the override, a registered name given first selects
    that function and only the arguments after it are read as
    parameters. *)
Theorem first_token_selects_function (env : gmap string string)
    (name : string) (rest : list string) :
  Py.truthy (env !! "FUNCTION_NAME") = false ->
  Py.dict_mem name TestFunction.FUNCTION_CONFIGS = true ->
  TestFunction.parse_args env (name :: rest)
  = ([], Ret (name, TestFunction.parse_params rest)).
Proof.
  intros Ht Hmem. unfold TestFunction.parse_args.
  rewrite (or_else_falsy _ _ Ht), Ht, Hmem. reflexivity.
Qed.

Lemma first_token_selects_function_witness :
  Py.truthy (Demo.env_ok !! "FUNCTION_NAME") = false
  /\ TestFunction.parse_args Demo.env_ok ["url-qr-code-generator"; "size=300"]
     = ([], Ret ("url-qr-code-generator", [("size", "300")])).
Proof.
  split; [reflexivity|].
  apply (first_token_selects_function Demo.env_ok "url-qr-code-generator"
           ["size=300"] eq_refl eq_refl).
Defined.



(** ** A signing key that the account library rejects *)

Lemma main_script_bad_key L env e :
  Py.all [env !! "PRIVATE_KEY"; env !! "RESOURCE_SERVER_URL"; env !! "ENDPOINT_PATH"]
  = true ->
  from_key L (Py.the (env !! "PRIVATE_KEY")) = inl e ->
  Main.script L env
  = (map Stdout (if Py.truthy (env !! "SUPABASE_ANON_KEY")
                 then ["Using Authorization header with Supabase anon key"]
                 else []),
     Raise e).
Proof.
  intros Hall Hkey. unfold Main.script. rewrite Hall. cbn [negb].
  destruct (Py.truthy (env !! "SUPABASE_ANON_KEY")).
  - rewrite print_then. cbn [Eff.trace Eff.result fst snd ret].
    rewrite (bind_returns _ _ _ _ eq_refl), Hkey. reflexivity.
  - rewrite bind_ret, Hkey. reflexivity.
Qed.

Lemma tf_test_function_bad_key L env name cfg params q e :
  Py.dict_get name TestFunction.FUNCTION_CONFIGS = Some cfg ->
  Py.urlencode (TestFunction.final_params cfg params) = inr q ->
  Py.truthy (env !! "PRIVATE_KEY") = true ->
  from_key L (Py.the (env !! "PRIVATE_KEY")) = inl e ->
  TestFunction.test_function L env name params = ([], Raise e).
Proof.
  intros Hcfg Hq Hkey He.
  rewrite (tf_test_function_encoded L env name cfg params q Hcfg Hq), Hkey.
  cbn [negb]. rewrite He. reflexivity.
Qed.

(** X11. A signing key that [Account.from_key] rejects is not caught by
    the handler of the request: the first script stops with that exception
    uncaught, having opened no client and sent no request, and the process
    writes the traceback and exits with status 1. *)
Theorem main_rejected_key_is_fatal (L : Lib) (env : gmap string string) (e : exn) :
  Py.all [env !! "PRIVATE_KEY"; env !! "RESOURCE_SERVER_URL"; env !! "ENDPOINT_PATH"]
  = true ->
  from_key L (Py.the (env !! "PRIVATE_KEY")) = inl e ->
  Eff.result (Main.script L env) = Raise e
  /\ requests (Eff.trace (Main.script L env)) = []
  /\ opened (Eff.trace (Main.script L env)) = []
  /\ stderr (fst (process (Main.script L env))) = [exn_traceback e]
  /\ snd (process (Main.script L env)) = 1.
Proof.
  intros Hall Hkey. rewrite (main_script_bad_key L env e Hall Hkey).
  destruct (Py.truthy (env !! "SUPABASE_ANON_KEY")); repeat split.
Qed.

Lemma main_rejected_key_is_fatal_witness :
  from_key Demo.offline (Py.the (Cases.env_bad_key !! "PRIVATE_KEY"))
  = inl (Exn "invalid private key" "ValueError")
  /\ stderr (fst (process (Main.script Demo.offline Cases.env_bad_key)))
     = ["ValueError"]
  /\ snd (process (Main.script Demo.offline Cases.env_bad_key)) = 1.
Proof.
  split; [reflexivity|].
  apply (proj2 (proj2 (proj2 (main_rejected_key_is_fatal Demo.offline
                                Cases.env_bad_key
                                (Exn "invalid private key" "ValueError")
                                eq_refl eq_refl)))).
Defined.

(** X12. In the second script too a rejected signing key is fatal: for
    a registered function whose parameters can be encoded into the query
    string, the request routine raises before it prints anything, so the
    process shows only the traceback, opens no client, sends no request,
    and exits with status 1. *)
Theorem test_function_rejected_key_is_fatal (L : Lib) (env : gmap string string)
    (name : string) (cfg : TestFunction.config) (params : Py.dict) (q : string)
    (e : exn) :
  Py.dict_get name TestFunction.FUNCTION_CONFIGS = Some cfg ->
  Py.urlencode (TestFunction.final_params cfg params) = inr q ->
  Py.truthy (env !! "PRIVATE_KEY") = true ->
  from_key L (Py.the (env !! "PRIVATE_KEY")) = inl e ->
  TestFunction.test_function L env name params = ([], Raise e)
  /\ process (TestFunction.test_function L env name params)
     = ([Stderr (exn_traceback e)], 1)
  /\ (forall args,
        TestFunction.parse_args env args = ([], Ret (name, params)) ->
        process (TestFunction.script L env args) = ([Stderr (exn_traceback e)], 1)).
Proof.
  intros Hcfg Hq Hkey He.
  pose proof (tf_test_function_bad_key L env name cfg params q e Hcfg Hq Hkey He)
    as H.
  split; [exact H|]. split; [rewrite H; reflexivity|].
  intros args Hp. unfold TestFunction.script.
  rewrite (bind_returns _ _ _ _ Hp). cbn [fst snd app]. rewrite H. reflexivity.
Qed.

Lemma test_function_rejected_key_is_fatal_witness :
  Py.truthy (Cases.env_bad_key !! "PRIVATE_KEY") = true
  /\ process (TestFunction.script Demo.offline Cases.env_bad_key ["toolzv4"])
     = ([Stderr "ValueError"], 1).
Proof.
  split; [reflexivity|].
  apply (proj2 (proj2 (test_function_rejected_key_is_fatal Demo.offline
                         Cases.env_bad_key "toolzv4"
                         {| TestFunction.description := "IPv4 Network Connectivity Testing Tool";
                            TestFunction.default_params :=
                              [("target", "8.8.8.8"); ("count", "4"); ("timeout", "5000")] |}
                         [] "target=8.8.8.8&count=4&timeout=5000"
                         (Exn "invalid private key" "ValueError")
                         eq_refl eq_refl eq_refl eq_refl))).
  reflexivity.
Defined.

(** ** A client that cannot be built *)

Lemma main_script_unbuilt L env acct e :
  Py.all [env !! "PRIVATE_KEY"; env !! "RESOURCE_SERVER_URL"; env !! "ENDPOINT_PATH"]
  = true ->
  from_key L (Py.the (env !! "PRIVATE_KEY")) = inr acct ->
  x402HttpxClient L (main_client_config L env acct) = inl e ->
  exists before, Main.script L env = (map Stdout before, Raise e).
Proof.
  intros Hall Hacct Hopen.
  destruct (main_script_configured L env acct Hall Hacct) as (before & ->).
  rewrite (main_refused L _ _ e Hopen). cbn [Eff.trace Eff.result fst snd].
  rewrite app_nil_r. exists before. reflexivity.
Qed.

Lemma tf_test_function_unbuilt L env name cfg params q acct e :
  Py.dict_get name TestFunction.FUNCTION_CONFIGS = Some cfg ->
  Py.urlencode (TestFunction.final_params cfg params) = inr q ->
  Py.truthy (env !! "PRIVATE_KEY") = true ->
  from_key L (Py.the (env !! "PRIVATE_KEY")) = inr acct ->
  x402HttpxClient L (tf_client_config L env acct) = inl e ->
  exists before,
    TestFunction.test_function L env name params = (map Stdout before, Raise e).
Proof.
  intros Hcfg Hq Hkey Hacct Hopen.
  destruct (tf_test_function_known L env name cfg params q acct Hcfg Hq Hkey Hacct)
    as (before & ->).
  rewrite (tf_send_refused L _ _ e Hopen). cbn [Eff.trace Eff.result fst snd].
  rewrite app_nil_r. exists before. reflexivity.
Qed.

(** ** Exit status *)

(** X13. The exit status of the first script is 1 exactly when a
    required variable is missing, the signing key is rejected, or the
    client cannot be built, and 0 in every other case, whatever the
    server answers. *)
Theorem main_exit_status (L : Lib) (env : gmap string string) :
  exit_status (Main.script L env)
  = if Py.all [env !! "PRIVATE_KEY"; env !! "RESOURCE_SERVER_URL";
               env !! "ENDPOINT_PATH"]
    then match from_key L (Py.the (env !! "PRIVATE_KEY")) with
         | inl _ => 1
         | inr acct =>
             match x402HttpxClient L (main_client_config L env acct) with
             | inl _ => 1
             | inr _ => 0
             end
         end
    else 1.
Proof.
  destruct (Py.all _) eqn:Hall.
  - destruct (from_key L (Py.the (env !! "PRIVATE_KEY"))) as [e|acct] eqn:Hkey.
    + unfold exit_status. rewrite (main_script_bad_key L env e Hall Hkey).
      reflexivity.
    + destruct (x402HttpxClient L (main_client_config L env acct))
        as [e|[]] eqn:Hopen.
      * destruct (main_script_unbuilt L env acct e Hall Hkey Hopen) as (b & ->).
        reflexivity.
      * destruct (main_script_configured L env acct Hall Hkey) as (b & ->).
        unfold exit_status. cbn [Eff.result snd].
        rewrite main_returns by exact Hopen. reflexivity.
  - unfold Main.script. rewrite Hall. reflexivity.
Qed.

(** X14. The exit status of the second script is decided before any
    request, for an override and a base URL that are well-formed text.
    It is 1 with no argument and for an unregistered first argument
    without override; for a registered function it is 1 when a parameter
    cannot be encoded, when the signing key is rejected, or when the
    client cannot be built; and it is 0 otherwise (missing signing key and
    unknown override included), whatever the server answers. *)
Theorem test_function_exit_status (L : Lib) (env : gmap string string)
    (args : list string) :
  Py.encodable (Py.the (env !! "FUNCTION_NAME")) = true ->
  Py.encodable (Py.or_else (env !! "RESOURCE_SERVER_URL")
                  TestFunction.default_base_url) = true ->
  exit_status (TestFunction.script L env args)
  = match args with
    | [] => 1
    | arg0 :: rest =>
        let name := Py.or_else (env !! "FUNCTION_NAME") arg0 in
        let params :=
          TestFunction.parse_params
            (if Py.truthy (env !! "FUNCTION_NAME") then args else rest) in
        match Py.dict_get name TestFunction.FUNCTION_CONFIGS with
        | Some cfg =>
            match Py.urlencode (TestFunction.final_params cfg params) with
            | inl _ => 1
            | inr _ =>
                if Py.truthy (env !! "PRIVATE_KEY") then
                  match from_key L (Py.the (env !! "PRIVATE_KEY")) with
                  | inl _ => 1
                  | inr acct =>
                      match x402HttpxClient L (tf_client_config L env acct) with
                      | inl _ => 1
                      | inr _ => 0
                      end
                  end
                else 0
            end
        | None => if Py.truthy (env !! "FUNCTION_NAME") then 0 else 1
        end
    end.
Proof.
  intros _ _.
  destruct args as [|arg0 rest]; [reflexivity|]. cbv zeta.
  unfold TestFunction.script, TestFunction.parse_args.
  destruct (Py.dict_get (Py.or_else (env !! "FUNCTION_NAME") arg0)
              TestFunction.FUNCTION_CONFIGS) as [cfg|] eqn:Hcfg.
  - rewrite (proj2 (dict_mem_get_some _ _) (ex_intro _ cfg Hcfg)).
    rewrite bind_ret. cbn [fst snd].
    assert (Hargs : (if negb (Py.truthy (env !! "FUNCTION_NAME"))
                     then rest else arg0 :: rest)
                    = (if Py.truthy (env !! "FUNCTION_NAME")
                       then arg0 :: rest else rest))
      by (destruct (Py.truthy (env !! "FUNCTION_NAME")); reflexivity).
    rewrite Hargs.
    set (params := TestFunction.parse_params _).
    destruct (Py.urlencode (TestFunction.final_params cfg params)) as [bad|q] eqn:Hq.
    { rewrite (tf_test_function_unencodable L env _ cfg params bad Hcfg Hq).
      reflexivity. }
    destruct (Py.truthy (env !! "PRIVATE_KEY")) eqn:Hkey.
    + destruct (from_key L (Py.the (env !! "PRIVATE_KEY"))) as [e|acct] eqn:He.
      * rewrite (tf_test_function_bad_key L env _ cfg params q e Hcfg Hq Hkey He).
        reflexivity.
      * destruct (x402HttpxClient L (tf_client_config L env acct))
          as [e|[]] eqn:Hopen.
        -- destruct (tf_test_function_unbuilt L env _ cfg params q acct e
                       Hcfg Hq Hkey He Hopen) as (b & ->).
           reflexivity.
        -- destruct (tf_test_function_known L env _ cfg params q acct
                       Hcfg Hq Hkey He) as (b & ->).
           unfold exit_status. cbn [Eff.result snd].
           rewrite tf_send_returns by exact Hopen. reflexivity.
    + rewrite (tf_test_function_no_key L env _ cfg params q Hcfg Hq Hkey).
      reflexivity.
  - rewrite (proj2 (dict_mem_get _ _) Hcfg).
    destruct (Py.truthy (env !! "FUNCTION_NAME")) eqn:Ht; cbn [negb].
    + rewrite bind_ret. cbn [fst snd].
      rewrite (or_else_truthy _ arg0 Ht) in Hcfg.
      rewrite (tf_test_function_unknown L env _ _ Hcfg).
      reflexivity.
    + reflexivity.
Qed.

Lemma test_function_exit_status_witness :
  exit_status (TestFunction.script Demo.paid Cases.env_bad_url ["toolzv4"]) = 1
  /\ exit_status (TestFunction.script Demo.paid Demo.env_ok ["toolzv4"]) = 0.
Proof.
  split.
  - rewrite (test_function_exit_status Demo.paid Cases.env_bad_url ["toolzv4"]
               eq_refl eq_refl).
    reflexivity.
  - rewrite (test_function_exit_status Demo.paid Demo.env_ok ["toolzv4"]
               eq_refl eq_refl).
    reflexivity.
Defined.

(** ** One client, one request *)

Lemma main_announce_prints L cfg path :
  exists lines, prints (Main.announce L cfg path) lines.
Proof. eexists [_; _; _; _; _; _; _; _]. reflexivity. Qed.

Lemma inner_prints_after t lines path :
  inner t path -> inner (t ++ map Stdout lines) path.
Proof.
  intros [Hr Ho]. split.
  - rewrite requests_app, Hr, requests_Stdout. reflexivity.
  - rewrite opened_app, Ho, opened_Stdout. reflexivity.
Qed.

Lemma inner_prints_before t lines path :
  inner t path -> inner (map Stdout lines ++ t) path.
Proof.
  intros [Hr Ho]. split.
  - rewrite requests_app, Hr, requests_Stdout. reflexivity.
  - rewrite opened_app, Ho, opened_Stdout. reflexivity.
Qed.

Lemma inner_get path : inner [Get path] path.
Proof. split; reflexivity. Qed.

Lemma tf_request_inner L cfg path :
  inner (Eff.trace (TestFunction.request L cfg path)) path.
Proof.
  destruct (client_get L cfg path) as [e|resp] eqn:Hget.
  { rewrite (tf_request_refused L cfg path e Hget). apply inner_get. }
  destruct (read_text resp) as [e|text] eqn:Hread.
  { rewrite (tf_request_unreadable L cfg path resp e Hget Hread).
    apply (inner_prints_after [Get path] [_]), inner_get. }
  rewrite (tf_request_read L cfg path resp text Hget Hread). cbn [Eff.trace fst].
  destruct (tf_verify_prints (status_code resp)) as [l1 H1]. rewrite H1.
  cbn [Eff.trace fst].
  assert (Hs : exists l2, Eff.trace (TestFunction.check_settlement L (headers resp))
                          = map Stdout l2).
  { destruct (tf_settlement_cases L (headers resp)) as [[l2 H2]|(l2 & e & H2)];
      rewrite H2; exists l2; reflexivity. }
  destruct Hs as [l2 ->].
  rewrite <- !map_app.
  apply (inner_prints_after [Get path] (_ :: _)), inner_get.
Qed.

Lemma main_request_inner L cfg path :
  inner (Eff.trace (Main.request L cfg path)) path.
Proof.
  destruct (main_announce_prints L cfg path) as [l0 H0].
  destruct (client_get L cfg path) as [e|resp] eqn:Hget.
  { rewrite (main_request_refused L cfg path e Hget), (prints_trace _ _ H0).
    apply inner_prints_before, inner_get. }
  destruct (read_text resp) as [e|text] eqn:Hread.
  { rewrite (main_request_unreadable L cfg path resp e Hget Hread),
      (prints_trace _ _ H0).
    apply inner_prints_before, (inner_prints_after [Get path] [_]), inner_get. }
  rewrite (main_request_read L cfg path resp text Hget Hread),
    (prints_trace _ _ H0). cbn [Eff.trace fst].
  destruct (main_verify_prints (status_code resp)) as [l1 H1]. rewrite H1.
  cbn [Eff.trace fst].
  assert (Hs : exists l2, Eff.trace (Main.check_settlement L (headers resp))
                          = map Stdout l2).
  { destruct (main_settlement_cases L (headers resp)) as [[l2 H2]|(l2 & e & H2)];
      rewrite H2; exists l2; reflexivity. }
  destruct Hs as [l2 ->].
  rewrite <- !map_app.
  apply inner_prints_before, (inner_prints_after [Get path] (_ :: _)), inner_get.
Qed.

(** The guarded block, once the client is built: the client is opened
    once, one request is sent, and the block ends with the client
    closed. *)
Lemma guarded_inner (body : M unit) base hdrs path :
  inner (Eff.trace body) path ->
  (Eff.result body = Ret tt \/ exists e, Eff.result body = Raise e) ->
  let run := async_with (inr tt) (ClientOpen base hdrs)
               (try_except body report_error) in
  requests (Eff.trace run) = [path]
  /\ opened (Eff.trace run) = [(base, hdrs)]
  /\ last (Eff.trace run) = Some ClientClose.
Proof.
  intros [Hr Ho] Hout run. unfold run.
  destruct Hout as [H|[e H]].
  - rewrite (guarded_returns _ _ H). cbn [Eff.trace fst].
    split; [|split].
    + change (requests (?a :: ?t)) with (requests t).
      rewrite requests_app, Hr. reflexivity.
    + change (opened (ClientOpen base hdrs :: ?t)) with ((base, hdrs) :: opened t).
      rewrite opened_app, Ho. reflexivity.
    + rewrite app_comm_cons. apply last_snoc.
  - destruct body as [t o]. cbn [Eff.result snd Eff.trace fst] in *. subst o.
    rewrite (guarded_raises _ _ t e eq_refl). cbn [Eff.trace fst].
    split; [|split].
    + change (requests (?a :: ?t)) with (requests t).
      rewrite requests_app, Hr. reflexivity.
    + change (opened (ClientOpen base hdrs :: ?t)) with ((base, hdrs) :: opened t).
      rewrite opened_app, Ho. reflexivity.
    + change (ClientOpen base hdrs :: t ++ [?a; ?b; ClientClose])
        with ((ClientOpen base hdrs :: t) ++ ([a; b] ++ [ClientClose])).
      rewrite app_assoc. apply last_snoc.
Qed.

Lemma main_guarded L cfg path :
  x402HttpxClient L cfg = inr tt ->
  requests (Eff.trace (Main.main L cfg path)) = [path]
  /\ opened (Eff.trace (Main.main L cfg path))
     = [(cfg_base_url cfg, cfg_headers cfg)]
  /\ last (Eff.trace (Main.main L cfg path)) = Some ClientClose.
Proof.
  intros Hopen. unfold Main.main. rewrite Hopen.
  apply (guarded_inner (Main.request L cfg path)).
  - apply main_request_inner.
  - apply main_request_outcome.
Qed.

Lemma tf_guarded L cfg path :
  x402HttpxClient L cfg = inr tt ->
  requests (Eff.trace (TestFunction.send L cfg path)) = [path]
  /\ opened (Eff.trace (TestFunction.send L cfg path))
     = [(cfg_base_url cfg, cfg_headers cfg)]
  /\ last (Eff.trace (TestFunction.send L cfg path)) = Some ClientClose.
Proof.
  intros Hopen. unfold TestFunction.send. rewrite Hopen.
  apply (guarded_inner (TestFunction.request L cfg path)).
  - apply tf_request_inner.
  - apply tf_request_outcome.
Qed.

Lemma last_app_nonempty {A} (l1 l2 : list A) x :
  last l2 = Some x -> last (l1 ++ l2) = Some x.
Proof.
  intros H. destruct l2 as [|y l2] using rev_ind; [discriminate|].
  rewrite last_snoc in H. rewrite app_assoc, last_snoc. exact H.
Qed.

(** X15. With its three required variables set, the base URL and the
    endpoint path well-formed text, a signing key that is accepted and a
    client that could be built, the first script opens exactly one
    client, on the configured base URL, with the [Authorization: Bearer]
    and JSON content-type headers when the bearer credential is set and
    with no default header otherwise; it sends exactly one request, to the
    configured endpoint path; and its last event is the closing of the
    client, whatever the server answers. *)
Theorem main_one_client_one_request (L : Lib) (env : gmap string string)
    (acct : account L) :
  Py.all [env !! "PRIVATE_KEY"; env !! "RESOURCE_SERVER_URL"; env !! "ENDPOINT_PATH"]
  = true ->
  Py.encodable (Py.the (env !! "RESOURCE_SERVER_URL")) = true ->
  Py.encodable (Py.the (env !! "ENDPOINT_PATH")) = true ->
  from_key L (Py.the (env !! "PRIVATE_KEY")) = inr acct ->
  x402HttpxClient L (main_client_config L env acct) = inr tt ->
  requests (Eff.trace (Main.script L env)) = [Py.the (env !! "ENDPOINT_PATH")]
  /\ opened (Eff.trace (Main.script L env))
     = [(Py.the (env !! "RESOURCE_SERVER_URL"),
         match env !! "SUPABASE_ANON_KEY" with
         | Some (String c key) =>
             [("Authorization", "Bearer " +:+ String c key);
              ("Content-Type", "application/json")]
         | _ => []
         end)]
  /\ last (Eff.trace (Main.script L env)) = Some ClientClose.
Proof.
  intros Hall _ _ Hacct Hopen.
  destruct (main_script_configured L env acct Hall Hacct) as (before & ->).
  cbn [Eff.trace fst].
  destruct (main_guarded L (main_client_config L env acct)
              (Py.the (env !! "ENDPOINT_PATH")) Hopen) as (Hr & Ho & Hl).
  split; [rewrite requests_app, requests_Stdout, Hr; reflexivity|].
  split; [|apply last_app_nonempty, Hl].
  rewrite opened_app, opened_Stdout, Ho. cbn [cfg_base_url cfg_headers app].
  unfold main_client_config, auth_headers. cbn [cfg_base_url cfg_headers].
  destruct (env !! "SUPABASE_ANON_KEY") as [[|c key]|]; reflexivity.
Qed.

Lemma main_one_client_one_request_witness :
  Py.all [Cases.env_anon !! "PRIVATE_KEY"; Cases.env_anon !! "RESOURCE_SERVER_URL";
          Cases.env_anon !! "ENDPOINT_PATH"] = true
  /\ opened (Eff.trace (Main.script Demo.paid Cases.env_anon))
     = [("https://example.test",
         [("Authorization", "Bearer anon"); ("Content-Type", "application/json")])].
Proof.
  split; [reflexivity|].
  apply (proj1 (proj2 (main_one_client_one_request Demo.paid Cases.env_anon
                         ("0xA11CE" +:+ "0x01")
                         eq_refl eq_refl eq_refl eq_refl eq_refl))).
Defined.

(** X16. For a registered function whose parameters can be encoded, a
    base URL that is well-formed text, an accepted signing key and a
    client that could be built, the second script opens exactly one
    client, on [RESOURCE_SERVER_URL] when that is set and not empty and on
    the built-in Supabase URL otherwise, with the bearer headers when the
    credential is set; it sends exactly one request, to the path built
    from the query string of the merged parameters; and its last event is
    the closing of the client. *)
Theorem test_function_one_client_one_request (L : Lib)
    (env : gmap string string) (name : string) (cfg : TestFunction.config)
    (params : Py.dict) (q : string) (acct : account L) :
  Py.dict_get name TestFunction.FUNCTION_CONFIGS = Some cfg ->
  Py.urlencode (Py.dict_merge (TestFunction.default_params cfg) params) = inr q ->
  Py.truthy (env !! "PRIVATE_KEY") = true ->
  Py.encodable (Py.or_else (env !! "RESOURCE_SERVER_URL")
                  TestFunction.default_base_url) = true ->
  from_key L (Py.the (env !! "PRIVATE_KEY")) = inr acct ->
  x402HttpxClient L (tf_client_config L env acct) = inr tt ->
  let run := Eff.trace (TestFunction.test_function L env name params) in
  requests run = ["/functions/v1/" +:+ name +:+ "?" +:+ q]
  /\ opened run
     = [(match env !! "RESOURCE_SERVER_URL" with
         | Some (String c url) => String c url
         | _ => "https://xluihnzwcmxybtygewvy.supabase.co"
         end,
         match env !! "SUPABASE_ANON_KEY" with
         | Some (String c key) =>
             [("Authorization", "Bearer " +:+ String c key);
              ("Content-Type", "application/json")]
         | _ => []
         end)]
  /\ last run = Some ClientClose.
Proof.
  intros Hcfg Hq Hkey _ Hacct Hopen run. unfold run.
  destruct (tf_test_function_known L env name cfg params q acct Hcfg Hq Hkey Hacct)
    as (before & ->).
  cbn [Eff.trace fst].
  destruct (tf_guarded L (tf_client_config L env acct)
              (TestFunction.endpoint_path name q) Hopen) as (Hr & Ho & Hl).
  split; [rewrite requests_app, requests_Stdout, Hr; reflexivity|].
  split; [|apply last_app_nonempty, Hl].
  rewrite opened_app, opened_Stdout, Ho.
  unfold tf_client_config, auth_headers. cbn [cfg_base_url cfg_headers app].
  destruct (env !! "RESOURCE_SERVER_URL") as [[|c url]|];
    destruct (env !! "SUPABASE_ANON_KEY") as [[|c' key]|]; reflexivity.
Qed.

Lemma test_function_one_client_one_request_witness :
  Py.truthy (Cases.env_key_only !! "PRIVATE_KEY") = true
  /\ opened (Eff.trace (TestFunction.test_function Demo.paid Cases.env_key_only
                          "email-validator" [("email", "a b@c.d")]))
     = [("https://xluihnzwcmxybtygewvy.supabase.co", [])]
  /\ requests (Eff.trace (TestFunction.test_function Demo.paid Cases.env_key_only
                            "email-validator" [("email", "a b@c.d")]))
     = ["/functions/v1/email-validator?email=a+b%40c.d"].
Proof.
  split; [reflexivity|].
  pose proof (test_function_one_client_one_request Demo.paid Cases.env_key_only
                "email-validator"
                {| TestFunction.description :=
                     "Email Validator - Validates email address format using RFC-style patterns";
                   TestFunction.default_params := [("email", "user@example.com")] |}
                [("email", "a b@c.d")] "email=a+b%40c.d" ("0xA11CE" +:+ "0x01")
                eq_refl eq_refl eq_refl eq_refl eq_refl eq_refl) as (Hr & Ho & _).
  split; [exact Ho | exact Hr].
Defined.

Lemma main_script_requests L env acct :
  Py.all [env !! "PRIVATE_KEY"; env !! "RESOURCE_SERVER_URL"; env !! "ENDPOINT_PATH"]
  = true ->
  from_key L (Py.the (env !! "PRIVATE_KEY")) = inr acct ->
  x402HttpxClient L (main_client_config L env acct) = inr tt ->
  requests (Eff.trace (Main.script L env)) = [Py.the (env !! "ENDPOINT_PATH")].
Proof.
  intros Hall Hacct Hopen.
  destruct (main_script_configured L env acct Hall Hacct) as (before & ->).
  cbn [Eff.trace fst]. rewrite requests_app, requests_Stdout.
  apply main_guarded, Hopen.
Qed.

Lemma tf_test_function_requests L env name cfg params q acct :
  Py.dict_get name TestFunction.FUNCTION_CONFIGS = Some cfg ->
  Py.urlencode (TestFunction.final_params cfg params) = inr q ->
  Py.truthy (env !! "PRIVATE_KEY") = true ->
  from_key L (Py.the (env !! "PRIVATE_KEY")) = inr acct ->
  x402HttpxClient L (tf_client_config L env acct) = inr tt ->
  requests (Eff.trace (TestFunction.test_function L env name params))
  = [TestFunction.endpoint_path name q].
Proof.
  intros Hcfg Hq Hkey Hacct Hopen.
  destruct (tf_test_function_known L env name cfg params q acct Hcfg Hq Hkey Hacct)
    as (before & ->).
  cbn [Eff.trace fst]. rewrite requests_app, requests_Stdout.
  apply tf_guarded, Hopen.
Qed.

(** X17. Neither script sends a request unless its inputs allow one.
    Whatever the first script requests is the configured endpoint path,
    and then its three variables are set, the key is accepted and the
    client was built.  Whatever the second script requests is the path of
    a registered function with the query string of its merged
    parameters, and then the signing key is set and accepted and the
    client was built: it never requests a function that the registry does
    not hold.  Neither script sends more than one request. *)
Theorem requests_decided_by_inputs (L : Lib) (env : gmap string string)
    (args : list string) :
  (forall path,
      In path (requests (Eff.trace (Main.script L env))) ->
      path = Py.the (env !! "ENDPOINT_PATH")
      /\ Py.all [env !! "PRIVATE_KEY"; env !! "RESOURCE_SERVER_URL";
                env !! "ENDPOINT_PATH"] = true
      /\ exists acct,
           from_key L (Py.the (env !! "PRIVATE_KEY")) = inr acct
           /\ x402HttpxClient L (main_client_config L env acct) = inr tt)
  /\ (forall path,
        In path (requests (Eff.trace (TestFunction.script L env args))) ->
        exists name cfg params q acct,
          TestFunction.parse_args env args = ([], Ret (name, params))
          /\ Py.dict_get name TestFunction.FUNCTION_CONFIGS = Some cfg
          /\ Py.urlencode (TestFunction.final_params cfg params) = inr q
          /\ path = "/functions/v1/" +:+ name +:+ "?" +:+ q
          /\ Py.truthy (env !! "PRIVATE_KEY") = true
          /\ from_key L (Py.the (env !! "PRIVATE_KEY")) = inr acct
          /\ x402HttpxClient L (tf_client_config L env acct) = inr tt)
  /\ (length (requests (Eff.trace (Main.script L env))) <= 1)%nat
  /\ (length (requests (Eff.trace (TestFunction.script L env args))) <= 1)%nat.
Proof.
  assert (Hmain :
    requests (Eff.trace (Main.script L env)) = []
    \/ (requests (Eff.trace (Main.script L env)) = [Py.the (env !! "ENDPOINT_PATH")]
        /\ Py.all [env !! "PRIVATE_KEY"; env !! "RESOURCE_SERVER_URL";
                  env !! "ENDPOINT_PATH"] = true
        /\ exists acct,
             from_key L (Py.the (env !! "PRIVATE_KEY")) = inr acct
             /\ x402HttpxClient L (main_client_config L env acct) = inr tt)).
  { destruct (Py.all [env !! "PRIVATE_KEY"; env !! "RESOURCE_SERVER_URL";
                      env !! "ENDPOINT_PATH"]) eqn:Hall.
    - destruct (from_key L (Py.the (env !! "PRIVATE_KEY"))) as [e|acct] eqn:Hkey.
      + left. rewrite (main_script_bad_key L env e Hall Hkey).
        apply requests_Stdout.
      + destruct (x402HttpxClient L (main_client_config L env acct))
          as [e|[]] eqn:Hopen.
        * left. destruct (main_script_unbuilt L env acct e Hall Hkey Hopen)
            as (b & ->). apply requests_Stdout.
        * right. split; [apply (main_script_requests L env acct Hall Hkey Hopen)|].
          split; [reflexivity|]. exists acct. split; [reflexivity | exact Hopen].
    - left. unfold Main.script. rewrite Hall. reflexivity. }
  assert (Htf :
    requests (Eff.trace (TestFunction.script L env args)) = []
    \/ exists name cfg params q acct,
         requests (Eff.trace (TestFunction.script L env args))
         = [TestFunction.endpoint_path name q]
         /\ TestFunction.parse_args env args = ([], Ret (name, params))
         /\ Py.dict_get name TestFunction.FUNCTION_CONFIGS = Some cfg
         /\ Py.urlencode (TestFunction.final_params cfg params) = inr q
         /\ Py.truthy (env !! "PRIVATE_KEY") = true
         /\ from_key L (Py.the (env !! "PRIVATE_KEY")) = inr acct
         /\ x402HttpxClient L (tf_client_config L env acct) = inr tt).
  { unfold TestFunction.script.
    destruct (parse_args_cases env args)
      as [(name & params & Hp)|(lines & _ & Hp)].
    2:{ left. rewrite (bind_exits _ _ _ _ Hp). apply requests_Stdout. }
    rewrite (bind_returns _ _ _ _ Hp). cbn [fst snd app Eff.trace].
    destruct (Py.truthy (env !! "PRIVATE_KEY")) eqn:Hkey.
    2:{ left. destruct (tf_test_function_keyless L env name params Hkey)
          as (lines & o & ->). apply requests_Stdout. }
    destruct (Py.dict_get name TestFunction.FUNCTION_CONFIGS) as [cfg|] eqn:Hcfg.
    2:{ left. rewrite (tf_test_function_unknown L env name params Hcfg).
        reflexivity. }
    destruct (Py.urlencode (TestFunction.final_params cfg params)) as [bad|q] eqn:Hq.
    { left. rewrite (tf_test_function_unencodable L env name cfg params bad Hcfg Hq).
      reflexivity. }
    destruct (from_key L (Py.the (env !! "PRIVATE_KEY"))) as [e|acct] eqn:He.
    { left. rewrite (tf_test_function_bad_key L env name cfg params q e
                       Hcfg Hq Hkey He). reflexivity. }
    destruct (x402HttpxClient L (tf_client_config L env acct)) as [e|[]] eqn:Hopen.
    { left. destruct (tf_test_function_unbuilt L env name cfg params q acct e
                        Hcfg Hq Hkey He Hopen) as (b & ->).
      apply requests_Stdout. }
    right. exists name, cfg, params, q, acct.
    split; [apply (tf_test_function_requests L env name cfg params q acct
                     Hcfg Hq Hkey He Hopen)|].
    repeat split; assumption. }
  split; [|split; [|split]].
  - intros path Hin. destruct Hmain as [H|(H & Hall & Hacct)];
      rewrite H in Hin; [destruct Hin|].
    destruct Hin as [<-|[]]. split; [reflexivity|]. split; assumption.
  - intros path Hin.
    destruct Htf as [H|(name & cfg & params & q & acct & H & Hrest)];
      rewrite H in Hin; [destruct Hin|].
    destruct Hin as [<-|[]]. exists name, cfg, params, q, acct.
    destruct Hrest as (Hp & Hcfg & Hq & Hkey & He & Hopen).
    repeat split; assumption.
  - destruct Hmain as [H|(H & _)]; rewrite H; cbn; lia.
  - destruct Htf as [H|(name & cfg & params & q & acct & H & _)];
      rewrite H; cbn; lia.
Qed.

Lemma requests_decided_by_inputs_witness :
  requests (Eff.trace (TestFunction.script Demo.paid Demo.env_bogus ["a=b"])) = []
  /\ exists cfg,
       Py.dict_get "toolzv4" TestFunction.FUNCTION_CONFIGS = Some cfg.
Proof.
  split; [reflexivity|].
  destruct (proj1 (proj2 (requests_decided_by_inputs Demo.paid Demo.env_ok
                            ["toolzv4"]))
              "/functions/v1/toolzv4?target=8.8.8.8&count=4&timeout=5000"
              ltac:(left; reflexivity))
    as (name & cfg & params & q & acct & Hp & Hcfg & _).
  injection Hp as <- _. exists cfg. exact Hcfg.
Defined.

(** ** The report on other answers *)

(** X18. For a response with status 200 that carries no settlement
    header, the report of either script shows the "verified" lines and
    then the notice that the settlement header is missing; no settlement
    confirmation block is printed, and the block returns normally. *)
Theorem status_200_without_settlement_header (L : Lib)
    (cfg : ClientConfig (account L) (Main.selector L))
    (cfg' : ClientConfig (account L) (TestFunction.selector L))
    (path : string) (resp resp' : Response) (text text' : string) :
  client_get L cfg path = inr resp -> read_text resp = inr text ->
  status_code resp = 200 ->
  lookup_header (headers resp) settlement_header = None ->
  client_get L cfg' path = inr resp' -> read_text resp' = inr text' ->
  status_code resp' = 200 ->
  lookup_header (headers resp') settlement_header = None ->
  Main.request L cfg path
  = (Eff.trace (Main.announce L cfg path)
       ++ [Get path; Stdout (status_line resp)]
       ++ map Stdout (response_lines L resp text)
       ++ map Stdout
            ["✅ Payment verified successfully!";
             "   (x402HttpxClient automatically handled the payment flow)";
             "   - Received 402 Payment Required";
             "   - Generated payment authorization";
             "   - Sent request with X-PAYMENT header";
             "   - Received 200 OK with function result";
             Py.nl +:+ "⚠️  No X-Payment-Response header";
             "   Payment was verified but settlement header not present";
             "   (This is normal if settlement failed but verification passed)"],
     Ret tt)
  /\ TestFunction.request L cfg' path
     = ([Get path; Stdout (status_line resp')]
          ++ map Stdout (response_lines L resp' text')
          ++ map Stdout
               ["✅ Payment verified successfully!";
                "   (x402HttpxClient automatically handled the payment flow)";
                Py.nl +:+ "⚠️  No X-Payment-Response header";
                "   (Payment verified but settlement header not present)"],
        Ret tt).
Proof.
  intros Hget Hread H200 Hh Hget' Hread' H200' Hh'. split.
  - rewrite (main_request_read L cfg path resp text Hget Hread), H200.
    rewrite (main_settlement_absent L _ Hh). reflexivity.
  - rewrite (tf_request_read L cfg' path resp' text' Hget' Hread'), H200'.
    rewrite (tf_settlement_absent L _ Hh'). reflexivity.
Qed.

Lemma status_200_without_settlement_header_witness :
  stdout (Eff.trace (TestFunction.request Cases.paid_plain
                       (Demo.client Cases.paid_plain "0xA11CE") "/f"))
  = ["2. Response Status: 200";
     Py.nl +:+ "📋 Response Headers:";
     Py.nl +:+ "📦 Response Body:"; "pong";
     Py.nl +:+ rule; "X-PAYMENT Header Verification:"; rule;
     "✅ Payment verified successfully!";
     "   (x402HttpxClient automatically handled the payment flow)";
     Py.nl +:+ "⚠️  No X-Payment-Response header";
     "   (Payment verified but settlement header not present)"].
Proof.
  rewrite (proj2 (status_200_without_settlement_header Cases.paid_plain
                    (Demo.client Cases.paid_plain "0xA11CE")
                    (Demo.client Cases.paid_plain "0xA11CE") "/f"
                    Cases.paid_plain_response Cases.paid_plain_response
                    "pong" "pong"
                    eq_refl eq_refl eq_refl eq_refl
                    eq_refl eq_refl eq_refl eq_refl)).
  reflexivity.
Defined.

(** X19. When the response carries a settlement header that the decoder
    rejects, either script has already printed the status, the echoed
    headers, the body and the classification of the status; it then
    prints neither a settlement confirmation block nor the missing-header
    notice, but reports the decoder's error through the handler (message
    on stdout, stack trace on stderr), closes the client and returns
    normally. *)
Theorem malformed_settlement_header_is_reported (L : Lib)
    (cfg : ClientConfig (account L) (Main.selector L))
    (cfg' : ClientConfig (account L) (TestFunction.selector L))
    (path : string) (resp : Response) (text value : string) (e : exn) :
  read_text resp = inr text ->
  lookup_header (headers resp) settlement_header = Some value ->
  decode_x_payment_response L value = inl e ->
  (x402HttpxClient L cfg = inr tt ->
   client_get L cfg path = inr resp ->
   Main.main L cfg path
   = (ClientOpen (cfg_base_url cfg) (cfg_headers cfg)
        :: (Eff.trace (Main.announce L cfg path)
              ++ [Get path; Stdout (status_line resp)]
              ++ map Stdout (response_lines L resp text)
              ++ Eff.trace (Main.verify_payment (status_code resp)))
        ++ [Stdout (Py.nl +:+ "❌ Error occurred: " +:+ exn_str e);
            Stderr (exn_traceback e); ClientClose],
      Ret tt))
  /\ (x402HttpxClient L cfg' = inr tt ->
      client_get L cfg' path = inr resp ->
      TestFunction.send L cfg' path
      = (ClientOpen (cfg_base_url cfg') (cfg_headers cfg')
           :: ([Get path; Stdout (status_line resp)]
                 ++ map Stdout (response_lines L resp text)
                 ++ Eff.trace (TestFunction.verify_payment (status_code resp)))
           ++ [Stdout (Py.nl +:+ "❌ Error occurred: " +:+ exn_str e);
               Stderr (exn_traceback e); ClientClose],
         Ret tt)).
Proof.
  intros Hread Hh Hd. split; intros Hopen Hget.
  - unfold Main.main. rewrite Hopen. apply guarded_raises.
    rewrite (main_request_read L cfg path resp text Hget Hread).
    rewrite (main_settlement_malformed L _ value e Hh Hd).
    cbn [Eff.trace Eff.result fst snd]. rewrite !app_nil_r. reflexivity.
  - unfold TestFunction.send. rewrite Hopen. apply guarded_raises.
    rewrite (tf_request_read L cfg' path resp text Hget Hread).
    rewrite (tf_settlement_malformed L _ value e Hh Hd).
    cbn [Eff.trace Eff.result fst snd]. rewrite !app_nil_r. reflexivity.
Qed.

Lemma malformed_settlement_header_is_reported_witness :
  stdout (Eff.trace (TestFunction.send Cases.paid_garbled
                       (Demo.client Cases.paid_garbled "0xA11CE") "/f"))
  = ["2. Response Status: 200";
     Py.nl +:+ "📋 Response Headers:";
     "   x-payment-response: eyJ0eCI6MX0=";
     Py.nl +:+ "📦 Response Body:"; "{}";
     Py.nl +:+ rule; "X-PAYMENT Header Verification:"; rule;
     "✅ Payment verified successfully!";
     "   (x402HttpxClient automatically handled the payment flow)";
     Py.nl +:+ "❌ Error occurred: Incorrect padding"]
  /\ stderr (Eff.trace (TestFunction.send Cases.paid_garbled
                          (Demo.client Cases.paid_garbled "0xA11CE") "/f"))
     = ["Traceback: binascii.Error"].
Proof.
  rewrite (proj2 (malformed_settlement_header_is_reported Cases.paid_garbled
                    (Demo.client Cases.paid_garbled "0xA11CE")
                    (Demo.client Cases.paid_garbled "0xA11CE") "/f"
                    Demo.paid_response "{}" "eyJ0eCI6MX0=" Cases.garbled
                    eq_refl eq_refl eq_refl) eq_refl eq_refl).
  split; reflexivity.
Defined.

(** X20. When the body of the response cannot be read, either script
    has printed the status line and nothing else about the response: no
    header is echoed, the status is not classified and the settlement
    header is not looked at.  The error is reported through the handler,
    the client is closed and the block returns normally. *)
Theorem unreadable_body_is_reported (L : Lib)
    (cfg : ClientConfig (account L) (Main.selector L))
    (cfg' : ClientConfig (account L) (TestFunction.selector L))
    (path : string) (resp : Response) (e : exn) :
  read_text resp = inl e ->
  (x402HttpxClient L cfg = inr tt ->
   client_get L cfg path = inr resp ->
   Main.main L cfg path
   = (ClientOpen (cfg_base_url cfg) (cfg_headers cfg)
        :: (Eff.trace (Main.announce L cfg path)
              ++ [Get path; Stdout (status_line resp)])
        ++ [Stdout (Py.nl +:+ "❌ Error occurred: " +:+ exn_str e);
            Stderr (exn_traceback e); ClientClose],
      Ret tt))
  /\ (x402HttpxClient L cfg' = inr tt ->
      client_get L cfg' path = inr resp ->
      TestFunction.send L cfg' path
      = ([ClientOpen (cfg_base_url cfg') (cfg_headers cfg');
          Get path; Stdout (status_line resp);
          Stdout (Py.nl +:+ "❌ Error occurred: " +:+ exn_str e);
          Stderr (exn_traceback e); ClientClose],
         Ret tt)
      /\ stdout (Eff.trace (TestFunction.send L cfg' path))
         = [status_line resp; Py.nl +:+ "❌ Error occurred: " +:+ exn_str e]
      /\ stderr (Eff.trace (TestFunction.send L cfg' path)) = [exn_traceback e]
      /\ Eff.result (TestFunction.send L cfg' path) = Ret tt).
Proof.
  intros Hread. split; intros Hopen Hget.
  - unfold Main.main. rewrite Hopen. apply guarded_raises.
    apply (main_request_unreadable L cfg path resp e Hget Hread).
  - unfold TestFunction.send. rewrite Hopen.
    rewrite (guarded_raises _ _ _ e
               (tf_request_unreadable L cfg' path resp e Hget Hread)).
    repeat split.
Qed.

Lemma unreadable_body_is_reported_witness :
  stdout (Eff.trace (TestFunction.send Cases.broken
                       (Demo.client Cases.broken "0xA11CE") "/f"))
  = ["2. Response Status: 200";
     Py.nl +:+ "❌ Error occurred: 'utf-8' codec can't decode byte 0xff"].
Proof.
  apply (proj1 (proj2 (proj2 (unreadable_body_is_reported Cases.broken
                  (Demo.client Cases.broken "0xA11CE")
                  (Demo.client Cases.broken "0xA11CE") "/f"
                  Cases.broken_response Cases.undecodable eq_refl)
                  eq_refl eq_refl))).
Defined.

(** X21. A body that does not parse as JSON is shown as one line: the
    beginning of the text, of at most 500 characters (code points, not
    bytes), and the whole text when it has no more than 500.  A body
    that parses is shown as the re-serialised document, whatever its
    length. *)
Theorem body_shown_is_bounded_prefix (L : Lib) (text : string) :
  (forall e, json_loads L text = inl e ->
     exists line rest,
       prints (show_body L text) [line]
       /\ text = line +:+ rest
       /\ Py.len line = Z.min 500 (Py.len text)
       /\ (Py.len text <= 500 -> line = text))
  /\ (forall data, json_loads L text = inr data ->
        prints (show_body L text) [json_dumps L data]).
Proof.
  split.
  - intros e He. destruct (take_prefix 500 text) as [rest Hrest].
    exists (Py.take 500 text), rest. split; [|split; [|split]].
    + unfold show_body. rewrite He. reflexivity.
    + exact Hrest.
    + apply (len_take 500).
    + apply (take_all 500).
  - intros data Hd. unfold show_body. rewrite Hd. reflexivity.
Qed.

Lemma body_shown_is_bounded_prefix_witness :
  Py.len (Cases.accents 300) = 300
  /\ prints (show_body Cases.paid_plain (Cases.accents 300)) [Cases.accents 300]
  /\ exists line rest,
       prints (show_body Cases.paid_plain (Cases.accents 501)) [line]
       /\ Cases.accents 501 = line +:+ rest
       /\ Py.len line = 500.
Proof.
  split; [reflexivity|].
  destruct (proj1 (body_shown_is_bounded_prefix Cases.paid_plain
                     (Cases.accents 300))
              (Exn "Expecting value" "JSONDecodeError") eq_refl)
    as (line & rest & Hp & _ & _ & Hall).
  split; [rewrite <- (Hall ltac:(vm_compute; discriminate)) at 2; exact Hp|].
  destruct (proj1 (body_shown_is_bounded_prefix Cases.paid_plain
                     (Cases.accents 501))
              (Exn "Expecting value" "JSONDecodeError") eq_refl)
    as (line' & rest' & Hp' & Ht' & Hl' & _).
  exists line', rest'. split; [exact Hp'|]. split; [exact Ht'|]. exact Hl'.
Defined.
